(** * EcoLink community resource sharing: booking engine and search loop

    A shallow embedding of [main_app.py]: the date helpers the booking path
    relies on ([date] comparison, [strftime]/[strptime] with the format
    [%Y-%m-%d]), the availability checker, [add_request], the request-form
    and offer-form submit handlers, the dashboard counters and the result
    loop of [search].

    Modelling conventions.
    - A data frame is the list of its rows, in row order; the CSV mirror
      written by [to_csv] is not modelled, the frames themselves are the
      state.
    - Integer columns are [Z]; the sum that makes a new identifier is taken
      on 64-bit integers and wraps around.  Text is [string] (ASCII text).
    - A raised exception is [None] in the [option] monad.
    - The clock ([datetime.today().date()]) is an explicit argument [today].
    - FAISS distances are exact rationals ([Q]); the embedding model and the
      vector index are opaque and appear only through the list of
      [(distance, row position)] pairs that [index.search] hands back. *)

From Stdlib Require Import ZArith List Sorted Permutation String Ascii Bool Lia.
From Stdlib Require Import QArith Qminmax Lqa.
Import ListNotations.

Open Scope Z_scope.

(** ** The option monad for code that may raise *)

Definition bind {A B : Type} (x : option A) (f : A -> option B) : option B :=
  match x with
  | Some a => f a
  | None => None
  end.

Notation "x <- e ;; k" := (bind e (fun x => k))
  (at level 61, e at next level, right associativity).

(** Regex alternation: the first alternative that lets the whole match
    succeed wins. *)
Definition orelse {A : Type} (x y : option A) : option A :=
  match x with
  | Some _ => x
  | None => y
  end.

Definition is_some {A : Type} (x : option A) : bool :=
  match x with
  | Some _ => true
  | None => false
  end.

(** The integers [lo, lo+1, ..., lo+n-1]. *)
Definition zrange (lo : Z) (n : nat) : list Z :=
  map (fun i => lo + Z.of_nat i) (seq 0 n).

(** ** [datetime.date] and the format [%Y-%m-%d] *)

Module PyDate.

Record date : Type := mkdate { year : Z; month : Z; day : Z }.

Definition is_leap (y : Z) : bool :=
  ((y mod 4 =? 0) && negb (y mod 100 =? 0)) || (y mod 400 =? 0).

Definition days_in_month (y m : Z) : Z :=
  if m =? 2 then (if is_leap y then 29 else 28)
  else if (m =? 4) || (m =? 6) || (m =? 9) || (m =? 11) then 30
  else 31.

(** What the [date] constructor accepts: [MINYEAR <= year <= MAXYEAR],
    a month of the year and a day of that month. *)
Definition date_ok (d : date) : bool :=
  (1 <=? year d) && (year d <=? 9999) &&
  (1 <=? month d) && (month d <=? 12) &&
  (1 <=? day d) && (day d <=? days_in_month (year d) (month d)).

(** [date] objects compare as the tuples [(year, month, day)]. *)
Definition cmp (a b : date) : comparison :=
  match year a ?= year b with
  | Eq => match month a ?= month b with
          | Eq => day a ?= day b
          | c => c
          end
  | c => c
  end.

Definition lt (a b : date) : bool :=
  match cmp a b with Lt => true | _ => false end.
Definition gt (a b : date) : bool :=
  match cmp a b with Gt => true | _ => false end.
Definition le (a b : date) : bool :=
  match cmp a b with Gt => false | _ => true end.
Definition ge (a b : date) : bool :=
  match cmp a b with Lt => false | _ => true end.

(** Decimal digits. *)
Definition digit (n : Z) : ascii :=
  ascii_of_nat (Z.to_nat (48 + n mod 10)).

Definition digit_val (c : ascii) : option Z :=
  let n := Z.of_nat (nat_of_ascii c) in
  if (48 <=? n) && (n <=? 57) then Some (n - 48) else None.

(** A character of the class [[lo-hi]], as its value. *)
Definition digit_in (lo hi : Z) (c : ascii) : option Z :=
  v <- digit_val c ;;
  if (lo <=? v) && (v <=? hi) then Some v else None.

Definition dash : ascii := "-"%char.
Definition space : ascii := " "%char.

(** [%Y] is the year zero-filled to four digits, [%m] and [%d] are
    zero-filled to two. *)
Definition strftime (d : date) : string :=
  string_of_list_ascii
    [ digit (year d / 1000); digit (year d / 100); digit (year d / 10);
      digit (year d); dash;
      digit (month d / 10); digit (month d); dash;
      digit (day d / 10); digit (day d) ].

(** [%Y] is the regex [\d\d\d\d]. *)
Definition parse_Y (l : list ascii) : option (Z * list ascii) :=
  match l with
  | a :: b :: c :: d :: rest =>
      va <- digit_val a ;; vb <- digit_val b ;;
      vc <- digit_val c ;; vd <- digit_val d ;;
      Some (1000 * va + 100 * vb + 10 * vc + vd, rest)
  | _ => None
  end.

(** The three alternatives of [%m], the regex [1[0-2]|0[1-9]|[1-9]]. *)
Definition m_alt1 (l : list ascii) : option (Z * list ascii) :=
  match l with
  | a :: b :: rest =>
      _ <- digit_in 1 1 a ;; v <- digit_in 0 2 b ;; Some (10 + v, rest)
  | _ => None
  end.

Definition m_alt2 (l : list ascii) : option (Z * list ascii) :=
  match l with
  | a :: b :: rest =>
      _ <- digit_in 0 0 a ;; v <- digit_in 1 9 b ;; Some (v, rest)
  | _ => None
  end.

Definition m_alt3 (l : list ascii) : option (Z * list ascii) :=
  match l with
  | a :: rest => v <- digit_in 1 9 a ;; Some (v, rest)
  | _ => None
  end.

(** The five alternatives of [%d], the regex
    [3[0-1]|[1-2]\d|0[1-9]|[1-9]| [1-9]]. *)
Definition d_alt1 (l : list ascii) : option (Z * list ascii) :=
  match l with
  | a :: b :: rest =>
      _ <- digit_in 3 3 a ;; v <- digit_in 0 1 b ;; Some (30 + v, rest)
  | _ => None
  end.

Definition d_alt2 (l : list ascii) : option (Z * list ascii) :=
  match l with
  | a :: b :: rest =>
      u <- digit_in 1 2 a ;; v <- digit_val b ;; Some (10 * u + v, rest)
  | _ => None
  end.

Definition d_alt5 (l : list ascii) : option (Z * list ascii) :=
  match l with
  | a :: b :: rest =>
      if Ascii.eqb a space then v <- digit_in 1 9 b ;; Some (v, rest)
      else None
  | _ => None
  end.

Definition expect_dash (l : list ascii) : option (list ascii) :=
  match l with
  | a :: rest => if Ascii.eqb a dash then Some rest else None
  | [] => None
  end.

(** The day is the last directive: the regex match ends after the first
    alternative that matches, and text left over after the match is
    "unconverted data remains", a [ValueError]. *)
Definition parse_d_end (l : list ascii) : option Z :=
  p <- orelse (d_alt1 l)
         (orelse (d_alt2 l)
            (orelse (m_alt2 l) (orelse (m_alt3 l) (d_alt5 l)))) ;;
  match snd p with
  | [] => Some (fst p)
  | _ :: _ => None
  end.

(** The month and everything after it; alternatives are tried in order,
    each with the rest of the pattern. *)
Definition parse_m_rest (l : list ascii) : option (Z * Z) :=
  let k (p : Z * list ascii) : option (Z * Z) :=
    r <- expect_dash (snd p) ;; d <- parse_d_end r ;; Some (fst p, d) in
  orelse (bind (m_alt1 l) k)
    (orelse (bind (m_alt2 l) k) (bind (m_alt3 l) k)).

(** [datetime.strptime(s, "%Y-%m-%d").date()] on ASCII text; [None] is
    [ValueError], raised when the text does not match, when text is left
    over, or when the three numbers are not a date. *)
Definition strptime (s : string) : option date :=
  p <- parse_Y (list_ascii_of_string s) ;;
  r <- expect_dash (snd p) ;;
  md <- parse_m_rest r ;;
  let d := mkdate (fst p) (fst md) (snd md) in
  if date_ok d then Some d else None.

End PyDate.

(** ** [str.strip] *)

Module PyStr.

(** The ASCII characters for which [str.isspace] holds. *)
Definition isspace (c : ascii) : bool :=
  let n := Z.of_nat (nat_of_ascii c) in
  ((9 <=? n) && (n <=? 13)) || ((28 <=? n) && (n <=? 32)).

Fixpoint lstrip (s : string) : string :=
  match s with
  | EmptyString => EmptyString
  | String c s' => if isspace c then lstrip s' else s
  end.

(** Strip on the right: a character is dropped when it is whitespace and
    everything after it has been dropped. *)
Fixpoint rstrip (s : string) : string :=
  match s with
  | EmptyString => EmptyString
  | String c s' =>
      match rstrip s' with
      | EmptyString => if isspace c then EmptyString else String c EmptyString
      | t => String c t
      end
  end.

Definition strip (s : string) : string := rstrip (lstrip s).

(** Nothing but whitespace (or nothing at all). *)
Fixpoint all_space (s : string) : bool :=
  match s with
  | EmptyString => true
  | String c s' => isspace c && all_space s'
  end.

End PyStr.

(** ** The resource store, the request ledger and the booking path *)

Module Booking.

Import PyDate.

Open Scope string_scope.
Open Scope list_scope.

Record Resource : Type := mkResource {
  id : Z;
  title : string;
  category : string;
  description : string;
  location : string;
  availability_start : string;
  availability_end : string;
  condition : string;
  rating : Z
}.

(** What [resource['title']] can be after [squeeze]: one title when exactly
    one row has the id, otherwise the whole (possibly empty) title column
    of the matching rows. *)
Inductive cell : Type :=
  | scalar (s : string)
  | series (l : list string).

Record Request : Type := mkRequest {
  request_id : Z;
  user_name : string;
  resource_id : Z;
  resource_title : cell;
  start_date : string;
  end_date : string;
  status : string
}.

(** The two module-level frames and the session flag of the request form. *)
Record State : Type := mkState {
  resources_df : list Resource;
  requests_df : list Request;
  request_active : bool
}.

(** [initialize_csv] followed by [read_csv]: two frames without rows. *)
Definition initial : State := mkState [] [] false.

Definition MSG_RANGE : string :=
  "Start date must be before or equal to end date.".
Definition MSG_PAST : string := "Dates cannot be in the past.".
Definition MSG_NAME : string := "Please enter your name.".
Definition MSG_REQUIRED : string := "Title and location are required.".

(** The error taxonomy of the booking path, as the messages the code
    reports. *)
Definition InvalidDateRange : string := MSG_RANGE.
Definition PastDate : string := MSG_PAST.
Definition MissingUserName : string := MSG_NAME.

Definition validate_dates (today start_date end_date : date) : bool * string :=
  if gt start_date end_date then (false, MSG_RANGE)
  else if lt start_date today || lt end_date today then (false, MSG_PAST)
  else (true, "").

(** The body of the [for] loop of [is_resource_available] over the rows
    that survived the filter. *)
Fixpoint scan_existing (start_date end_date : date) (existing : list Request)
  : option bool :=
  match existing with
  | [] => Some true
  | row :: rest =>
      existing_start <- strptime (Booking.start_date row) ;;
      existing_end <- strptime (Booking.end_date row) ;;
      if le start_date existing_end && ge end_date existing_start
      then Some false
      else scan_existing start_date end_date rest
  end.

Definition confirmed_for (rid : Z) (row : Request) : bool :=
  (resource_id row =? rid)%Z && (status row =? "Confirmed").

Definition is_resource_available (rid : Z) (start_date end_date : date)
  (requests : list Request) : option bool :=
  let existing := filter (confirmed_for rid) requests in
  scan_existing start_date end_date existing.

(** The identifier columns of a frame read from its file hold 64-bit signed
    integers, and a sum on them wraps around. *)
Definition INT64_MIN : Z := (- 2 ^ 63)%Z.
Definition INT64_MAX : Z := (2 ^ 63 - 1)%Z.

Definition int64 (z : Z) : Z := ((z - INT64_MIN) mod 2 ^ 64 + INT64_MIN)%Z.

Definition in_int64 (z : Z) : Prop := (INT64_MIN <= z <= INT64_MAX)%Z.

(** [1 if df.empty else df[col].max() + 1] on an integer column. *)
Definition next_id (col : list Z) : Z :=
  match col with
  | [] => 1
  | x :: xs => int64 (fold_left Z.max xs x + 1)
  end.

Definition set_availability_start (v : string) (r : Resource) : Resource :=
  mkResource (id r) (title r) (category r) (description r) (location r)
    v (availability_end r) (condition r) (rating r).

Definition set_availability_end (v : string) (r : Resource) : Resource :=
  mkResource (id r) (title r) (category r) (description r) (location r)
    (availability_start r) v (condition r) (rating r).

(** [df.loc[df['id'] == rid, col] = v]. *)
Definition loc_set (rid : Z) (setter : Resource -> Resource)
  (df : list Resource) : list Resource :=
  map (fun r => if (id r =? rid)%Z then setter r else r) df.

Definition add_request (name : string) (rid : Z) (rtitle : cell)
  (start_date end_date : date) (st_status : string) (st : State) : State :=
  let new_request_id := next_id (map request_id (requests_df st)) in
  let new_request :=
    mkRequest new_request_id name rid rtitle
      (strftime start_date) (strftime end_date) st_status in
  let requests := requests_df st ++ [new_request] in
  let resources :=
    if st_status =? "Confirmed" then
      loc_set rid (set_availability_end "")
        (loc_set rid (set_availability_start "") (resources_df st))
    else resources_df st in
  mkState resources requests (request_active st).

(** [resources_df.loc[resources_df['id'] == resource_id].squeeze()] and the
    ['title'] lookup on the result. *)
Inductive squeezed : Type :=
  | row_series (r : Resource)
  | frame (rows : list Resource).

Definition squeeze (rows : list Resource) : squeezed :=
  match rows with
  | [r] => row_series r
  | _ => frame rows
  end.

Definition get_title (x : squeezed) : cell :=
  match x with
  | row_series r => scalar (title r)
  | frame rows => series (map title rows)
  end.

(** What the page shows after a submit. *)
Inductive Feedback : Type :=
  | st_error (msg : string)
  | st_success (what : cell)
  | st_warning.

Definition deactivate (st : State) : State :=
  mkState (resources_df st) (requests_df st) false.

(** A "Request Resource" button: it opens the request form. *)
Definition activate (st : State) : State :=
  mkState (resources_df st) (requests_df st) true.

(** The [if submitted:] block of the request form (Home page and Smart
    Search page carry the same block). *)
Definition request_form_submit (today : date) (name : string) (rid : Z)
  (start_date end_date : date) (st : State) : option (Feedback * State) :=
  let resource :=
    squeeze (filter (fun r => (id r =? rid)%Z) (resources_df st)) in
  let '(is_valid, msg) := validate_dates today start_date end_date in
  if negb is_valid then Some (st_error msg, st)
  else if PyStr.strip name =? "" then Some (st_error MSG_NAME, st)
  else
    available <- is_resource_available rid start_date end_date
                   (requests_df st) ;;
    if (available : bool) then
      Some (st_success (get_title resource),
            deactivate (add_request name rid (get_title resource)
                          start_date end_date "Confirmed" st))
    else
      Some (st_warning,
            deactivate (add_request name rid (get_title resource)
                          start_date end_date "Waitlist" st)).

(** The [if submitted:] block of the offer form. *)
Definition offer_form_submit (today : date)
  (o_title o_category o_description o_location : string)
  (start_date end_date : date) (o_condition : string) (o_rating : Z)
  (st : State) : Feedback * State :=
  let '(is_valid, msg) := validate_dates today start_date end_date in
  if negb is_valid then (st_error msg, st)
  else if (PyStr.strip o_title =? "") || (PyStr.strip o_location =? "")
  then (st_error MSG_REQUIRED, st)
  else
    let new_id := next_id (map id (resources_df st)) in
    let new_resource :=
      mkResource new_id o_title o_category o_description o_location
        (strftime start_date) (strftime end_date) o_condition o_rating in
    (st_success (scalar o_title),
     mkState (resources_df st ++ [new_resource]) (requests_df st)
       (request_active st)).

(** The counters of the Home page (Quick Stats) and of the dashboard
    (Summary Metrics). *)
Definition count_status (s : string) (requests : list Request) : nat :=
  List.length (filter (fun r => status r =? s) requests).

Definition home_confirmed_requests (st : State) : nat :=
  count_status "confirmed" (requests_df st).
Definition home_waitlist_requests (st : State) : nat :=
  count_status "requested" (requests_df st).
Definition dashboard_confirmed (st : State) : nat :=
  count_status "confirmed" (requests_df st).
Definition dashboard_waitlist (st : State) : nat :=
  count_status "requested" (requests_df st).

(** States built from the empty frames by the two forms alone.  The dates a
    form hands over are [date] objects, hence [date_ok]; the request form is
    on the page only while [request_active] is set. *)
Inductive reachable : State -> Prop :=
  | reach_initial : reachable initial
  | reach_offer today t c d l s e cond r st :
      reachable st ->
      date_ok s = true -> date_ok e = true ->
      reachable (snd (offer_form_submit today t c d l s e cond r st))
  | reach_activate st :
      reachable st -> reachable (activate st)
  | reach_request today name rid s e st fb st' :
      reachable st ->
      request_active st = true ->
      date_ok s = true -> date_ok e = true ->
      request_form_submit today name rid s e st = Some (fb, st') ->
      reachable st'.

(** Identifiers that are positive and pairwise different. *)
Definition unique_positive (col : list Z) : Prop :=
  NoDup col /\ Forall (fun i => (0 < i)%Z) col.

(** The statuses the booking path writes. *)
Definition booking_status (row : Request) : Prop :=
  status row = "Confirmed" \/ status row = "Waitlist".

(** The closed-interval rule of the specification: [[s1,e1]] and [[s2,e2]]
    overlap iff [s1 <= e2] and [e1 >= s2]. *)
Definition ranges_overlap (s1 e1 s2 e2 : date) : Prop :=
  le s1 e2 = true /\ ge e1 s2 = true.

(** A ledger entry as the data model has it: both dates are ISO dates. *)
Definition iso_dates (row : Request) : bool :=
  is_some (strptime (start_date row)) && is_some (strptime (end_date row)).

Definition ledger_ok (requests : list Request) : Prop :=
  Forall (fun row => iso_dates row = true) requests.

(** The candidate range [[s,e]] intersects the range of a ledger entry. *)
Definition overlaps_row (s e : date) (row : Request) : Prop :=
  exists es ee,
    strptime (start_date row) = Some es /\
    strptime (end_date row) = Some ee /\
    ranges_overlap s e es ee.

(** Some Confirmed entry of resource [rid] intersects [[s,e]]. *)
Definition blocked (rid : Z) (s e : date) (requests : list Request) : Prop :=
  exists row,
    In row requests /\ resource_id row = rid /\ status row = "Confirmed" /\
    overlaps_row s e row.

(** Everything of a resource row but its two availability fields. *)
Definition same_other_fields (r r' : Resource) : Prop :=
  id r' = id r /\ title r' = title r /\ category r' = category r /\
  description r' = description r /\ location r' = location r /\
  condition r' = condition r /\ rating r' = rating r.

(** [new] is [old] with the availability of the rows of [rid] emptied and
    nothing else touched. *)
Definition cleared (rid : Z) (old new : list Resource) : Prop :=
  List.length new = List.length old /\
  forall i r, nth_error old i = Some r ->
    exists r', nth_error new i = Some r' /\
      if (id r =? rid)%Z
      then availability_start r' = "" /\ availability_end r' = "" /\
           same_other_fields r r'
      else r' = r.

(** What every state built by the forms satisfies. *)
Definition invariant (st : State) : Prop :=
  Forall booking_status (requests_df st) /\
  ledger_ok (requests_df st).

(** A column of [n] identifiers numbered from 1. *)
Definition numbered (col : list Z) : Prop :=
  col = zrange 1 (List.length col).

(** A frame small enough for its next identifier to be a 64-bit integer. *)
Definition fits_int64 {A : Type} (rows : list A) : Prop :=
  (Z.of_nat (List.length rows) < INT64_MAX)%Z.

(** The request form accepted the dates and the name. *)
Definition passes_validation (today : date) (name : string)
  (s e : date) : Prop :=
  fst (validate_dates today s e) = true /\ PyStr.strip name <> "".

End Booking.

(** ** The Smart Search page *)

Module Search.

Import Booking.

Open Scope string_scope.
Open Scope list_scope.

(** One entry of [zip(distances[0], indices[0])]. *)
Definition hit : Type := (Q * Z)%type.

(** A result row: the copied resource row with its ["score"] field. *)
Definition scored : Type := (Resource * Q)%type.

(** [resources_df.iloc[idx]]: positions count from the end when negative,
    and a position outside the frame is an [IndexError]. *)
Definition iloc (df : list Resource) (idx : Z) : option Resource :=
  let n := Z.of_nat (List.length df) in
  if (0 <=? idx)%Z && (idx <? n)%Z then nth_error df (Z.to_nat idx)
  else if (- n <=? idx)%Z && (idx <? 0)%Z then nth_error df (Z.to_nat (n + idx))
  else None.

(** The builtin [max] on two arguments keeps the first unless the second is
    greater. *)
Definition py_max (a b : Q) : Q := if Qle_bool b a then a else b.

Definition score (dist : Q) : Q := py_max (1 - dist / 2) 0.

Definition nonneg (h : hit) : bool := Qle_bool 0 (fst h).

(** The [for] loop of [search], with [results_list] as accumulator. *)
Fixpoint search_loop (df : list Resource) (k : nat) (hits : list hit)
  (results_list : list scored) : option (list scored) :=
  match hits with
  | [] => Some results_list
  | (dist, idx) :: rest =>
      results <-
        (if Qle_bool 0 dist
         then row <- iloc df idx ;; Some (results_list ++ [(row, score dist)])
         else Some results_list) ;;
      if (k <=? List.length results)%nat then Some results
      else search_loop df k rest results
  end.

(** [retrieve query n] stands for [index.search(model.encode([query]), n)],
    the two opaque collaborators in sequence. *)
Definition search (retrieve : string -> nat -> list hit)
  (df : list Resource) (query : string) (k : nat) : option (list scored) :=
  search_loop df k (retrieve query (k * 2)%nat) [].







(** The specification's words for the query phase: of the retrieved
    entries drop those with a negative distance, keep the first [k], and
    attach the score to each. *)
Definition attach (df : list Resource) (h : hit) : option scored :=
  row <- iloc df (snd h) ;; Some (row, score (fst h)).

Fixpoint mapM {A B : Type} (f : A -> option B) (l : list A) : option (list B) :=
  match l with
  | [] => Some []
  | x :: xs => y <- f x ;; ys <- mapM f xs ;; Some (y :: ys)
  end.

Definition spec_search (df : list Resource) (k : nat) (hits : list hit)
  : option (list scored) :=
  mapM (attach df) (firstn k (filter nonneg hits)).

(** The same with nothing taken from the code but the row lookup: an entry
    is dropped when its distance is below 0 and the score of a kept entry
    is the greater of [1 - d/2] and 0. *)
Definition negative (d : Q) : bool :=
  match (d ?= 0)%Q with
  | Lt => true
  | _ => false
  end.

Definition spec_score (d : Q) : Q := Qmax (1 - d / 2) 0.

Definition spec_result (df : list Resource) (k : nat) (hits : list hit)
  : option (list scored) :=
  mapM (fun h => row <- iloc df (snd h) ;; Some (row, spec_score (fst h)))
    (firstn k (filter (fun h => negb (negative (fst h))) hits)).

(** Every kept entry points into the frame. *)
Definition hits_in_range (df : list Resource) (hits : list hit) : Prop :=
  Forall (fun h => nonneg h = true -> is_some (iloc df (snd h)) = true) hits.

(** Scores from best to worst. *)
Definition descending (l : list Q) : Prop :=
  StronglySorted (fun a b : Q => (b <= a)%Q) l.

(** A result row comes from a kept entry: its row is the one at the entry's
    position and its score is the score of the entry's distance. *)
Definition from_hit (df : list Resource) (hits : list hit) (r : scored) : Prop :=
  exists h, In h hits /\ nonneg h = true /\
            iloc df (snd h) = Some (fst r) /\ snd r = score (fst h).

End Search.

(** ** A small community, used to run the definitions *)

Module Demo.

Import PyDate Booking.
Open Scope string_scope.
Open Scope list_scope.

Definition today : date := mkdate 2025 5 1.
Definition jun (d : Z) : date := mkdate 2025 6 d.

Definition dec31 : date := mkdate 2025 12 31.

(** A drill and a tent are offered, from today to the end of the year. *)
Definition offered1 : State :=
  Eval vm_compute in
    snd (offer_form_submit today "Drill" "Tools" "Cordless drill" "Pune"
           today dec31 "Good" 4 initial).

Definition offered2 : State :=
  Eval vm_compute in
    snd (offer_form_submit today "Tent" "Outdoor" "Two person tent" "Nashik"
           today dec31 "Excellent" 5 offered1).

(** Two listed resources, no request yet, the request form open. *)
Definition st0 : State := Eval vm_compute in activate offered2.

Definition after (r : option (Feedback * State)) : State :=
  match r with
  | Some (_, st) => st
  | None => initial
  end.

(** Asha books the drill for 1-10 June. *)
Definition st1 : State :=
  Eval vm_compute in
    after (request_form_submit today "Asha" 1 (jun 1) (jun 10) st0).

(** Ravi then asks for the drill for 11-15 June. *)
Definition st1a : State := Eval vm_compute in activate st1.
Definition st2 : State :=
  Eval vm_compute in
    after (request_form_submit today "Ravi" 1 (jun 11) (jun 15) st1a).

(** Meera asks for 5-7 June, inside Asha's booking. *)
Definition st2a : State := Eval vm_compute in activate st2.
Definition st3 : State :=
  Eval vm_compute in
    after (request_form_submit today "Meera" 1 (jun 5) (jun 7) st2a).

(** Ten listed items and an index that ranks them by position: the n-th
    nearest item is at distance n/4 from any query. *)
Definition shelf : list Resource :=
  map (fun i => mkResource i "Item" "Tools" "" "Pune"
                  "2025-05-01" "2025-12-31" "Good" 3) (zrange 1 10).

Definition ranked (q : string) (n : nat) : list Search.hit :=
  map (fun i => (Z.of_nat i # 4, Z.of_nat i)) (seq 0 n).


End Demo.

(** ** Statements of the specification that the code is checked against *)

Module Statements.

Import PyDate Booking.
Open Scope string_scope.
Open Scope list_scope.

(** "After one Confirmed booking on resource X, a second booking attempt on
    X with non-overlapping dates still goes to Waitlist." *)
Definition single_confirmation : Prop :=
  forall today1 today2 name1 name2 rid s1 e1 s2 e2 st0 t st1,
    ledger_ok (requests_df st0) ->
    date_ok s1 = true -> date_ok e1 = true ->
    request_form_submit today1 name1 rid s1 e1 st0 = Some (st_success t, st1) ->
    passes_validation today2 name2 s2 e2 ->
    ~ ranges_overlap s2 e2 s1 e1 ->
    exists st2 row,
      request_form_submit today2 name2 rid s2 e2 st1 = Some (st_warning, st2) /\
      requests_df st2 = requests_df st1 ++ [row] /\
      status row = "Waitlist".


(** "Assigned as max(existing)+1", on a column of 64-bit integers. *)
Definition id_is_max_plus_one : Prop :=
  forall x xs,
    Forall Booking.in_int64 (x :: xs) ->
    exists m,
      In m (x :: xs) /\ Forall (fun y => (y <= m)%Z) (x :: xs) /\
      Booking.next_id (x :: xs) = (m + 1)%Z.

End Statements.

(** ** Histories of the two frames *)

Module History.

Import PyDate Booking.
Open Scope string_scope.
Open Scope list_scope.

(** The row carries the range [[s,e]] as [add_request] writes it. *)
Definition written (row : Request) (s e : date) : Prop :=
  date_ok s = true /\ date_ok e = true /\
  start_date row = strftime s /\ end_date row = strftime e.

(** Every row got its status from the rows before it: Confirmed when no
    earlier Confirmed row of the resource overlaps its range, Waitlist when
    one does. *)
Definition decided_by_earlier (requests : list Request) : Prop :=
  forall l1 row l2, requests = l1 ++ row :: l2 ->
    exists s e,
      written row s e /\ le s e = true /\
      ((status row = "Confirmed" /\ ~ blocked (resource_id row) s e l1) \/
       (status row = "Waitlist" /\ blocked (resource_id row) s e l1)).

(** Two Confirmed rows of one resource never overlap. *)
Definition no_double_booking (requests : list Request) : Prop :=
  forall i j r1 r2 s1 e1 s2 e2,
    i <> j ->
    nth_error requests i = Some r1 -> nth_error requests j = Some r2 ->
    status r1 = "Confirmed" -> status r2 = "Confirmed" ->
    resource_id r1 = resource_id r2 ->
    strptime (start_date r1) = Some s1 -> strptime (end_date r1) = Some e1 ->
    strptime (start_date r2) = Some s2 -> strptime (end_date r2) = Some e2 ->
    ~ ranges_overlap s1 e1 s2 e2.

(** A resource row later on: the same row, or the same row with both
    availability fields emptied. *)
Definition row_evolves (r r' : Resource) : Prop :=
  r' = r \/
  (same_other_fields r r' /\
   availability_start r' = "" /\ availability_end r' = "").

Definition store_evolves (old new : list Resource) : Prop :=
  (List.length old <= List.length new)%nat /\
  forall i r, nth_error old i = Some r ->
    exists r', nth_error new i = Some r' /\ row_evolves r r'.


End History.

(** ** The grouped overview of the dashboard *)

Module Dashboard.

Import Booking.
Open Scope string_scope.
Open Scope list_scope.

(** [groupby] presents its keys in ascending order. *)
Fixpoint insert_sorted (k : string) (keys : list string) : list string :=
  match keys with
  | [] => [k]
  | x :: xs => if String.leb k x then k :: keys else x :: insert_sorted k xs
  end.

Definition sort_keys (keys : list string) : list string :=
  fold_right insert_sorted [] keys.

(** The texts that [read_csv] takes for a missing value. *)
Definition NA_VALUES : list string :=
  [ ""; "#N/A"; "#N/A N/A"; "#NA"; "-1.#IND"; "-1.#QNAN"; "-NaN"; "-nan";
    "1.#IND"; "1.#QNAN"; "<NA>"; "N/A"; "NA"; "NULL"; "NaN"; "None";
    "n/a"; "nan"; "null" ].

Definition is_na (s : string) : bool := existsb (String.eqb s) NA_VALUES.

(** [requests_df.groupby('status')] on a text column: one group per status
    present, the missing one left out, each with the rows of that status in
    ledger order. *)
Definition groupby_status (requests : list Request)
  : list (string * list Request) :=
  map (fun k => (k, filter (fun r => status r =? k) requests))
    (sort_keys
       (nodup string_dec
          (filter (fun k => negb (is_na k)) (map status requests)))).

(** The lines "<status> Requests: <len(group)>". *)
Definition grouped_overview (requests : list Request) : list (string * nat) :=
  map (fun kg => (fst kg, List.length (snd kg))) (groupby_status requests).

Definition total_requests (st : State) : nat := List.length (requests_df st).

End Dashboard.

(** ** The table and the chart of the predictions page *)

Module Predictions.

Open Scope list_scope.

(** [df.head(10)]. *)
Definition top_10 {A : Type} (sorted_resources : list A) : list A :=
  firstn 10 sorted_resources.

(** [df.iloc[::2]]: the rows at positions 0, 2, 4, ... *)
Fixpoint iloc_step2 {A : Type} (l : list A) : list A :=
  match l with
  | [] => []
  | x :: rest =>
      x :: match rest with
           | [] => []
           | _ :: rest' => iloc_step2 rest'
           end
  end.

Definition sampled_top {A : Type} (sorted_resources : list A) : list A :=
  iloc_step2 (top_10 sorted_resources).

End Predictions.

(** ** More sample data *)

Module Samples.

Import PyDate Booking.
Open Scope string_scope.
Open Scope list_scope.

(** Meera's waitlisted request, the third row of [Demo.st3]. *)
Definition meera : Request :=
  mkRequest 3 "Meera" 1 (scalar "Drill") "2025-06-05" "2025-06-07" "Waitlist".

(** The drill as it is listed in [Demo.st0]. *)
Definition drill : Resource :=
  mkResource 1 "Drill" "Tools" "Cordless drill" "Pune"
    "2025-05-01" "2025-12-31" "Good" 4.

(** Frames as they may come from the files: identifiers with gaps, not in
    order. *)
Definition loaded : State :=
  mkState
    [ mkResource 7 "Saw" "Tools" "Hand saw" "Pune"
        "2025-05-01" "2025-12-31" "Fair" 3;
      mkResource 3 "Kayak" "Sports" "Sea kayak" "Goa"
        "2025-05-01" "2025-12-31" "Good" 4 ]
    [ mkRequest 40 "Asha" 3 (scalar "Kayak")
        "2025-06-01" "2025-06-10" "Confirmed" ]
    true.

Definition loaded_next : State :=
  Eval vm_compute in
    Demo.after (request_form_submit Demo.today "Ravi" 7
                  (Demo.jun 1) (Demo.jun 2) loaded).

(** A ledger whose greatest request id is the greatest 64-bit integer. *)
Definition brim : State :=
  mkState (resources_df loaded)
    [ mkRequest INT64_MAX "Asha" 3 (scalar "Kayak")
        "2025-06-01" "2025-06-10" "Confirmed" ]
    true.



End Samples.

(** * Properties *)

(** ** Dates: the text written by [strftime] is read back by [strptime] *)

Module PyDateFacts.

Import PyDate.

Lemma zrange_In (x lo : Z) (n : nat) :
  lo <= x < lo + Z.of_nat n -> In x (zrange lo n).
Proof.
  intros Hx. unfold zrange. apply in_map_iff.
  exists (Z.to_nat (x - lo)). split; [lia|].
  apply in_seq. lia.
Qed.

Lemma digit_val_digit (n : Z) : digit_val (digit n) = Some (n mod 10).
Proof.
  unfold digit.
  assert (Hm : In (n mod 10) (zrange 0 10))
    by (apply zrange_In; pose proof (Z.mod_pos_bound n 10); lia).
  assert (Hall : forallb
            (fun m => match digit_val (ascii_of_nat (Z.to_nat (48 + m))) with
                      | Some v => v =? m
                      | None => false
                      end) (zrange 0 10) = true) by reflexivity.
  rewrite forallb_forall in Hall. specialize (Hall _ Hm).
  destruct (digit_val _) as [v|]; [|discriminate].
  apply Z.eqb_eq in Hall. now subst.
Qed.

Lemma parse_Y_strftime (y : Z) (rest : list ascii) :
  0 <= y <= 9999 ->
  parse_Y (digit (y / 1000) :: digit (y / 100) :: digit (y / 10) ::
           digit y :: rest) = Some (y, rest).
Proof.
  intros Hy. unfold parse_Y. rewrite !digit_val_digit. cbn [bind].
  f_equal. f_equal.
  replace (y / 100) with (y / 10 / 10)
    by (rewrite Z.div_div by lia; reflexivity).
  replace (y / 1000) with (y / 10 / 10 / 10)
    by (rewrite !Z.div_div by lia; reflexivity).
  assert (Hhi : 0 <= y / 10 / 10 / 10 < 10).
  { split.
    - repeat apply Z.div_pos; lia.
    - rewrite !Z.div_div by lia. apply Z.div_lt_upper_bound; lia. }
  rewrite (Z.mod_small (y / 10 / 10 / 10) 10) by lia.
  pose proof (Z.div_mod y 10 ltac:(lia)).
  pose proof (Z.div_mod (y / 10) 10 ltac:(lia)).
  pose proof (Z.div_mod (y / 10 / 10) 10 ltac:(lia)).
  lia.
Qed.

Lemma parse_m_rest_strftime (m d : Z) :
  1 <= m <= 12 -> 1 <= d <= 31 ->
  parse_m_rest [digit (m / 10); digit m; dash; digit (d / 10); digit d]
  = Some (m, d).
Proof.
  intros Hm Hd.
  assert (Hall : forallb (fun m' => forallb (fun d' =>
            match parse_m_rest [digit (m' / 10); digit m'; dash;
                                digit (d' / 10); digit d'] with
            | Some (a, b) => (a =? m') && (b =? d')
            | None => false
            end) (zrange 1 31)) (zrange 1 12) = true) by (vm_compute; reflexivity).
  rewrite forallb_forall in Hall.
  specialize (Hall m (zrange_In m 1 12 ltac:(lia))).
  rewrite forallb_forall in Hall.
  specialize (Hall d (zrange_In d 1 31 ltac:(lia))).
  destruct (parse_m_rest _) as [[a b]|]; [|discriminate].
  apply andb_true_iff in Hall. destruct Hall as [Ha Hb].
  apply Z.eqb_eq in Ha, Hb. now subst.
Qed.

Lemma days_in_month_le_31 (y m : Z) : days_in_month y m <= 31.
Proof.
  unfold days_in_month.
  repeat match goal with |- context [if ?b then _ else _] => destruct b end; lia.
Qed.

Lemma date_ok_bounds (d : date) :
  date_ok d = true ->
  1 <= year d <= 9999 /\ 1 <= month d <= 12 /\ 1 <= day d <= 31.
Proof.
  unfold date_ok. rewrite !andb_true_iff, !Z.leb_le.
  pose proof (days_in_month_le_31 (year d) (month d)). lia.
Qed.

Lemma strptime_strftime (d : date) :
  date_ok d = true -> strptime (strftime d) = Some d.
Proof.
  intros Hok. destruct (date_ok_bounds d Hok) as (Hy & Hm & Hd).
  unfold strptime, strftime.
  rewrite list_ascii_of_string_of_list_ascii.
  rewrite parse_Y_strftime by lia. cbn [bind fst snd].
  unfold expect_dash at 1. cbn [Ascii.eqb dash Bool.eqb].
  cbn [bind]. rewrite parse_m_rest_strftime by lia.
  cbn [bind fst snd]. destruct d as [y m dd]; cbn [year month day] in *.
  now rewrite Hok.
Qed.

(** Comparison facts. *)

Lemma cmp_antisym (a b : date) : cmp b a = CompOpp (cmp a b).
Proof.
  unfold cmp.
  rewrite (Z.compare_antisym (year a) (year b)),
          (Z.compare_antisym (month a) (month b)),
          (Z.compare_antisym (day a) (day b)).
  destruct (year a ?= year b), (month a ?= month b), (day a ?= day b);
    reflexivity.
Qed.

Lemma ge_le (a b : date) : ge a b = le b a.
Proof. unfold ge, le. rewrite (cmp_antisym a b). now destruct (cmp a b). Qed.

Lemma gt_not_le (a b : date) : gt a b = negb (le a b).
Proof. unfold gt, le. now destruct (cmp a b). Qed.

Lemma lt_not_ge (a b : date) : lt a b = negb (ge a b).
Proof. unfold lt, ge. now destruct (cmp a b). Qed.

End PyDateFacts.

(** ** The availability checker *)

Module AvailabilityFacts.

Import PyDate Booking.
Open Scope string_scope.
Open Scope list_scope.

Lemma iso_dates_parse (row : Request) :
  iso_dates row = true ->
  exists es ee,
    strptime (start_date row) = Some es /\ strptime (end_date row) = Some ee.
Proof.
  unfold iso_dates. intros H. apply andb_true_iff in H. destruct H as [Hs He].
  destruct (strptime (start_date row)) as [es|]; [|discriminate].
  destruct (strptime (end_date row)) as [ee|]; [|discriminate].
  now exists es, ee.
Qed.

Lemma ledger_ok_filter (p : Request -> bool) (requests : list Request) :
  ledger_ok requests -> ledger_ok (filter p requests).
Proof.
  unfold ledger_ok. rewrite !Forall_forall. intros H row Hin.
  apply filter_In in Hin. now apply H.
Qed.

Lemma ledger_ok_app (l1 l2 : list Request) :
  ledger_ok l1 -> ledger_ok l2 -> ledger_ok (l1 ++ l2).
Proof. unfold ledger_ok. intros. now apply Forall_app. Qed.

(** One step of the loop, once the two dates of the row are known. *)
Lemma scan_existing_cons (s e es ee : date) (row : Request) (rest : list Request) :
  strptime (start_date row) = Some es ->
  strptime (end_date row) = Some ee ->
  scan_existing s e (row :: rest) =
  if le s ee && ge e es then Some false else scan_existing s e rest.
Proof. intros Hs He. cbn [scan_existing]. now rewrite Hs, He. Qed.

Lemma scan_existing_total (s e : date) (existing : list Request) :
  ledger_ok existing -> exists b, scan_existing s e existing = Some b.
Proof.
  induction 1 as [|row rest Hrow _ IH].
  - now exists true.
  - destruct (iso_dates_parse row Hrow) as (es & ee & Hs & He).
    rewrite (scan_existing_cons s e es ee row rest Hs He).
    destruct (le s ee && ge e es); [now exists false | exact IH].
Qed.

Lemma scan_existing_false (s e : date) (existing : list Request) :
  ledger_ok existing ->
  (scan_existing s e existing = Some false <->
   exists row, In row existing /\ overlaps_row s e row).
Proof.
  induction 1 as [|row rest Hrow _ IH].
  - cbn. split; [discriminate | intros (row & [] & _)].
  - destruct (iso_dates_parse row Hrow) as (es & ee & Hs & He).
    rewrite (scan_existing_cons s e es ee row rest Hs He).
    destruct (le s ee && ge e es) eqn:Hov.
    + split; [intros _ | reflexivity].
      exists row. split; [now left|]. exists es, ee.
      apply andb_true_iff in Hov. now repeat split.
    + rewrite IH. split.
      * intros (r & Hin & Hr). exists r. split; [now right | exact Hr].
      * intros (r & [Heq | Hin] & Hr); [|now exists r].
        subst r. destruct Hr as (es' & ee' & Hs' & He' & Hle & Hge).
        rewrite Hs in Hs'. rewrite He in He'.
        injection Hs' as <-. injection He' as <-.
        rewrite Hle, Hge in Hov. discriminate.
Qed.

Lemma blocked_filter (rid : Z) (s e : date) (requests : list Request) :
  blocked rid s e requests <->
  exists row, In row (filter (confirmed_for rid) requests) /\ overlaps_row s e row.
Proof.
  unfold blocked, confirmed_for. split.
  - intros (row & Hin & Hid & Hst & Hov). exists row. split; [|exact Hov].
    apply filter_In. split; [exact Hin|].
    apply andb_true_iff. split; [now apply Z.eqb_eq | now apply String.eqb_eq].
  - intros (row & Hin & Hov). apply filter_In in Hin. destruct Hin as [Hin Hc].
    apply andb_true_iff in Hc. destruct Hc as [Hid Hst].
    exists row. repeat split; try assumption.
    + now apply Z.eqb_eq.
    + now apply String.eqb_eq.
Qed.

Lemma is_resource_available_total (rid : Z) (s e : date) (requests : list Request) :
  ledger_ok requests ->
  exists b, is_resource_available rid s e requests = Some b.
Proof.
  intros Hok. apply scan_existing_total. now apply ledger_ok_filter.
Qed.

Lemma is_resource_available_false (rid : Z) (s e : date) (requests : list Request) :
  ledger_ok requests ->
  (is_resource_available rid s e requests = Some false <->
   blocked rid s e requests).
Proof.
  intros Hok. unfold is_resource_available.
  rewrite scan_existing_false by now apply ledger_ok_filter.
  symmetry. apply blocked_filter.
Qed.

Lemma is_resource_available_true (rid : Z) (s e : date) (requests : list Request) :
  ledger_ok requests ->
  (is_resource_available rid s e requests = Some true <->
   ~ blocked rid s e requests).
Proof.
  intros Hok.
  destruct (is_resource_available_total rid s e requests Hok) as [b Hb].
  rewrite <- (is_resource_available_false rid s e requests Hok), Hb.
  destruct b; split; congruence.
Qed.

(** C1.  On a ledger whose entries carry ISO dates, the availability check
    returns [False] exactly when the candidate range [[s,e]] intersects, by
    the closed-interval rule, the range of some entry of that resource with
    status Confirmed, and [True] otherwise; in particular it returns [True]
    when the resource has no Confirmed entry. *)
Theorem is_resource_available_iff_overlap
  (rid : Z) (s e : date) (requests : list Request) :
  ledger_ok requests ->
  (is_resource_available rid s e requests = Some false <->
     blocked rid s e requests) /\
  (is_resource_available rid s e requests = Some true <->
     ~ blocked rid s e requests) /\
  ((forall row, In row requests -> resource_id row = rid ->
      status row <> "Confirmed") ->
   is_resource_available rid s e requests = Some true).
Proof.
  intros Hok. split; [|split].
  - now apply is_resource_available_false.
  - now apply is_resource_available_true.
  - intros Hnone. apply is_resource_available_true; [exact Hok|].
    intros (row & Hin & Hid & Hst & _). exact (Hnone row Hin Hid Hst).
Qed.

(** The overlap test does not depend on which range is the candidate. *)
Lemma ranges_overlap_sym (s1 e1 s2 e2 : date) :
  ranges_overlap s1 e1 s2 e2 <-> ranges_overlap s2 e2 s1 e1.
Proof.
  unfold ranges_overlap. rewrite !PyDateFacts.ge_le. tauto.
Qed.

End AvailabilityFacts.

(** ** The request form *)

Module BookingFacts.

Import PyDate Booking PyDateFacts AvailabilityFacts.
Open Scope string_scope.
Open Scope list_scope.

Lemma validate_dates_cases (today s e : date) :
  validate_dates today s e =
  if gt s e then (false, MSG_RANGE)
  else if lt s today || lt e today then (false, MSG_PAST)
  else (true, "").
Proof. reflexivity. Qed.

(** Past validation, the handler is the availability check followed by one
    call of [add_request]. *)
Lemma request_form_submit_valid (today : date) (name : string) (rid : Z)
  (s e : date) (st : State) :
  passes_validation today name s e ->
  request_form_submit today name rid s e st =
  (available <- is_resource_available rid s e (requests_df st) ;;
   let t := get_title
              (squeeze (filter (fun r => (id r =? rid)%Z) (resources_df st))) in
   Some (if (available : bool) then st_success t else st_warning,
         deactivate
           (add_request name rid t s e
              (if available then "Confirmed" else "Waitlist") st))).
Proof.
  intros [Hv Hn]. unfold request_form_submit.
  destruct (validate_dates today s e) as [v msg]. cbn in Hv. subst v.
  cbn [negb]. apply String.eqb_neq in Hn. rewrite Hn.
  destruct (is_resource_available rid s e (requests_df st)) as [[|]|];
    reflexivity.
Qed.

(** A success message can only come from a validated, available request. *)
Lemma request_form_submit_success (today : date) (name : string) (rid : Z)
  (s e : date) (st st' : State) (t : cell) :
  request_form_submit today name rid s e st = Some (st_success t, st') ->
  passes_validation today name s e /\
  is_resource_available rid s e (requests_df st) = Some true /\
  st' = deactivate (add_request name rid t s e "Confirmed" st).
Proof.
  unfold request_form_submit, passes_validation.
  destruct (validate_dates today s e) as [[|] msg]; cbn [negb fst];
    [|discriminate].
  destruct (PyStr.strip name =? "") eqn:Hn; [discriminate|].
  apply String.eqb_neq in Hn.
  destruct (is_resource_available rid s e (requests_df st)) as [[|]|];
    cbn [bind]; try discriminate.
  intros H. injection H as Ht Hst. subst. auto.
Qed.

Lemma requests_df_add_request (name : string) (rid : Z) (t : cell)
  (s e : date) (status0 : string) (st : State) :
  requests_df (deactivate (add_request name rid t s e status0 st)) =
  requests_df st ++
  [mkRequest (next_id (map request_id (requests_df st))) name rid t
     (strftime s) (strftime e) status0].
Proof. reflexivity. Qed.

Lemma resources_df_add_request_waitlist (name : string) (rid : Z) (t : cell)
  (s e : date) (st : State) :
  resources_df (deactivate (add_request name rid t s e "Waitlist" st)) =
  resources_df st.
Proof. reflexivity. Qed.

Lemma resources_df_add_request_confirmed (name : string) (rid : Z) (t : cell)
  (s e : date) (st : State) :
  resources_df (deactivate (add_request name rid t s e "Confirmed" st)) =
  loc_set rid (set_availability_end "")
    (loc_set rid (set_availability_start "") (resources_df st)).
Proof. reflexivity. Qed.

Lemma loc_set_cleared (rid : Z) (df : list Resource) :
  cleared rid df
    (loc_set rid (set_availability_end "")
       (loc_set rid (set_availability_start "") df)).
Proof.
  unfold cleared, loc_set. split.
  - now rewrite !length_map.
  - intros i r Hi. rewrite map_map, nth_error_map, Hi. cbn [option_map].
    eexists. split; [reflexivity|].
    destruct (id r =? rid)%Z eqn:Hid.
    + cbn [id set_availability_start]. rewrite Hid.
      cbn. unfold same_other_fields. cbn. auto 10.
    + now rewrite Hid.
Qed.

(** Without a row of that id the two assignments select nothing. *)
Lemma loc_set_absent (rid : Z) (setter : Resource -> Resource)
  (df : list Resource) :
  (forall r, In r df -> id r <> rid) -> loc_set rid setter df = df.
Proof.
  intros Habs. unfold loc_set. rewrite <- (map_id df) at 2.
  apply map_ext_in. intros r Hr.
  destruct (id r =? rid)%Z eqn:Hid; [|reflexivity].
  apply Z.eqb_eq in Hid. now elim (Habs r Hr).
Qed.

Lemma filter_absent (rid : Z) (df : list Resource) :
  (forall r, In r df -> id r <> rid) ->
  filter (fun r => (id r =? rid)%Z) df = [].
Proof.
  intros Habs. induction df as [|r df IH]; [reflexivity|].
  cbn. destruct (id r =? rid)%Z eqn:Hid.
  - apply Z.eqb_eq in Hid. elim (Habs r (or_introl eq_refl) Hid).
  - apply IH. intros r' Hr'. apply Habs. now right.
Qed.

(** A name is empty after [strip] exactly when it holds whitespace only. *)
Lemma strip_empty_all_space (s : string) :
  PyStr.strip s = "" <-> PyStr.all_space s = true.
Proof.
  unfold PyStr.strip.
  assert (R : forall t, PyStr.rstrip t = "" <-> PyStr.all_space t = true).
  { induction t as [|c t IH]; cbn; [tauto|].
    destruct (PyStr.rstrip t) eqn:Ht.
    - destruct (PyStr.isspace c); cbn.
      + now rewrite <- IH.
      + split; discriminate.
    - split; [discriminate|]. intros H. apply andb_true_iff in H.
      destruct H as [_ H]. apply IH in H. discriminate. }
  induction s as [|c s IH]; cbn; [tauto|].
  destruct (PyStr.isspace c) eqn:Hc; cbn [andb]; [exact IH|].
  rewrite R. cbn. rewrite Hc. tauto.
Qed.

(** C3.  A submission that passes validation appends exactly one request to
    the ledger.  When the availability check succeeds the request is
    Confirmed and the rows of that resource get both availability fields
    emptied, every other field and every other row staying as it was; when
    the check fails the request is Waitlist and the resource frame is the
    one before the call. *)
Theorem submit_appends_one_request
  (today : date) (name : string) (rid : Z) (s e : date) (st : State) :
  ledger_ok (requests_df st) ->
  passes_validation today name s e ->
  exists available fb st' row,
    is_resource_available rid s e (requests_df st) = Some available /\
    request_form_submit today name rid s e st = Some (fb, st') /\
    requests_df st' = requests_df st ++ [row] /\
    resource_id row = rid /\ user_name row = name /\
    start_date row = strftime s /\ end_date row = strftime e /\
    (available = true ->
       status row = "Confirmed" /\
       cleared rid (resources_df st) (resources_df st')) /\
    (available = false ->
       status row = "Waitlist" /\ resources_df st' = resources_df st).
Proof.
  intros Hok Hv.
  destruct (is_resource_available_total rid s e _ Hok) as [available Ha].
  rewrite (request_form_submit_valid today name rid s e st Hv), Ha.
  cbn [bind]. exists available. do 3 eexists.
  split; [reflexivity|]. split; [reflexivity|].
  rewrite requests_df_add_request. split; [reflexivity|].
  cbn [resource_id user_name start_date end_date status].
  repeat (split; [reflexivity|]). split; intros ->.
  - split; [reflexivity|]. rewrite resources_df_add_request_confirmed.
    apply loc_set_cleared.
  - split; reflexivity.
Qed.

(** C4.  Validation runs in order and stops at the first failure: a start
    date after the end date is reported as InvalidDateRange; otherwise a
    date before today is reported as PastDate; otherwise a name that is
    empty after stripping is reported as MissingUserName.  In each case the
    ledger and the resource frame are the ones before the call. *)
Theorem validation_short_circuits
  (today : date) (name : string) (rid : Z) (s e : date) (st : State) :
  (gt s e = true ->
   request_form_submit today name rid s e st
   = Some (st_error InvalidDateRange, st)) /\
  (gt s e = false -> lt s today = true \/ lt e today = true ->
   request_form_submit today name rid s e st
   = Some (st_error PastDate, st)) /\
  (gt s e = false -> lt s today = false -> lt e today = false ->
   PyStr.strip name = "" ->
   request_form_submit today name rid s e st
   = Some (st_error MissingUserName, st)).
Proof.
  unfold request_form_submit. rewrite validate_dates_cases.
  split; [|split].
  - intros ->. reflexivity.
  - intros -> Hpast.
    assert (Hor : lt s today || lt e today = true)
      by (apply orb_true_iff; exact Hpast).
    rewrite Hor. reflexivity.
  - intros -> -> -> ->. reflexivity.
Qed.

(** C10.  The booking path never looks the resource id up in the resource
    frame: a validated submission appends a request for any id and never
    reports an error; when no row has that id the frame is left as it was
    and the title recorded is the empty title column. *)
Theorem booking_ignores_resource_existence
  (today : date) (name : string) (rid : Z) (s e : date) (st : State) :
  ledger_ok (requests_df st) ->
  passes_validation today name s e ->
  exists fb st' row,
    request_form_submit today name rid s e st = Some (fb, st') /\
    (forall msg, fb <> st_error msg) /\
    requests_df st' = requests_df st ++ [row] /\
    resource_id row = rid /\
    (status row = "Confirmed" \/ status row = "Waitlist") /\
    ((forall r, In r (resources_df st) -> id r <> rid) ->
       resources_df st' = resources_df st /\
       resource_title row = series []).
Proof.
  intros Hok Hv.
  destruct (is_resource_available_total rid s e _ Hok) as [available Ha].
  rewrite (request_form_submit_valid today name rid s e st Hv), Ha.
  cbn [bind]. do 3 eexists. split; [reflexivity|].
  split; [destruct available; discriminate|].
  rewrite requests_df_add_request. split; [reflexivity|].
  cbn [resource_id status resource_title]. split; [reflexivity|].
  split; [destruct available; auto|].
  intros Habs. rewrite (filter_absent rid _ Habs). split; [|reflexivity].
  destruct available.
  - rewrite resources_df_add_request_confirmed.
    rewrite (loc_set_absent rid _ (resources_df st) Habs).
    now apply loc_set_absent.
  - reflexivity.
Qed.

(** The entry written for a booking of [[s1,e1]] reads back as [[s1,e1]]. *)
Lemma overlaps_row_written (s e s1 e1 : date) (n : Z) (name : string)
  (rid : Z) (t : cell) (status0 : string) :
  date_ok s1 = true -> date_ok e1 = true ->
  (overlaps_row s e
     (mkRequest n name rid t (strftime s1) (strftime e1) status0) <->
   ranges_overlap s e s1 e1).
Proof.
  intros H1 H2. unfold overlaps_row. cbn [start_date end_date].
  rewrite (strptime_strftime s1 H1), (strptime_strftime e1 H2). split.
  - intros (es & ee & Hs & He & Hov).
    injection Hs as <-. injection He as <-. exact Hov.
  - intros Hov. now exists s1, e1.
Qed.

Lemma iso_dates_written (s1 e1 : date) (n : Z) (name : string)
  (rid : Z) (t : cell) (status0 : string) :
  date_ok s1 = true -> date_ok e1 = true ->
  iso_dates (mkRequest n name rid t (strftime s1) (strftime e1) status0) = true.
Proof.
  intros H1 H2. unfold iso_dates. cbn [start_date end_date].
  now rewrite (strptime_strftime s1 H1), (strptime_strftime e1 H2).
Qed.

Lemma ledger_ok_add_request (name : string) (rid : Z) (t : cell)
  (s e : date) (status0 : string) (st : State) :
  ledger_ok (requests_df st) -> date_ok s = true -> date_ok e = true ->
  ledger_ok (requests_df (deactivate (add_request name rid t s e status0 st))).
Proof.
  intros Hok Hs He. rewrite requests_df_add_request.
  apply ledger_ok_app; [exact Hok|].
  constructor; [|constructor]. now apply iso_dates_written.
Qed.

Lemma blocked_app (rid : Z) (s e : date) (l1 l2 : list Request) :
  blocked rid s e (l1 ++ l2) <-> blocked rid s e l1 \/ blocked rid s e l2.
Proof.
  unfold blocked. split.
  - intros (row & Hin & H). apply in_app_or in Hin.
    destruct Hin; [left | right]; now exists row.
  - intros [(row & Hin & H) | (row & Hin & H)]; exists row;
      (split; [apply in_or_app; auto | exact H]).
Qed.

Lemma blocked_confirmed_entry (rid : Z) (s e s1 e1 : date) (n : Z)
  (name : string) (t : cell) :
  date_ok s1 = true -> date_ok e1 = true ->
  (blocked rid s e
     [mkRequest n name rid t (strftime s1) (strftime e1) "Confirmed"] <->
   ranges_overlap s e s1 e1).
Proof.
  intros H1 H2. unfold blocked. split.
  - intros (row & [<- | []] & _ & _ & Hov).
    now apply (overlaps_row_written s e s1 e1 n name rid t "Confirmed").
  - intros Hov. eexists. split; [now left|]. cbn [resource_id status].
    repeat split. now apply overlaps_row_written.
Qed.

Lemma loc_set_emptied (rid : Z) (df : list Resource) (r : Resource) :
  In r (loc_set rid (set_availability_end "")
          (loc_set rid (set_availability_start "") df)) ->
  id r = rid ->
  availability_start r = "" /\ availability_end r = "".
Proof.
  unfold loc_set. rewrite map_map. intros Hin Hid.
  apply in_map_iff in Hin. destruct Hin as (r0 & Hr & _). subst r.
  destruct (id r0 =? rid)%Z eqn:H0.
  - cbn [id set_availability_start] in *. rewrite H0. now cbn.
  - rewrite H0 in Hid. apply Z.eqb_neq in H0. contradiction.
Qed.

(** C2, as the code has it.  Once a Confirmed booking of [[s1,e1]] has been
    recorded for a resource and its availability fields emptied, a later
    validated submission for the same resource is decided by the ledger
    alone: it is Confirmed when its range overlaps no Confirmed range of the
    resource, and Waitlist when it overlaps the recorded one.  The emptied
    availability fields are not consulted. *)
Theorem rebooking_follows_ledger
  (today1 today2 : date) (name1 name2 : string) (rid : Z)
  (s1 e1 s2 e2 : date) (st0 st1 : State) (t : cell) :
  ledger_ok (requests_df st0) ->
  date_ok s1 = true -> date_ok e1 = true ->
  request_form_submit today1 name1 rid s1 e1 st0 = Some (st_success t, st1) ->
  passes_validation today2 name2 s2 e2 ->
  ~ blocked rid s2 e2 (requests_df st0) ->
  (forall r, In r (resources_df st1) -> id r = rid ->
     availability_start r = "" /\ availability_end r = "") /\
  (~ ranges_overlap s2 e2 s1 e1 ->
     exists t2 st2 row,
       request_form_submit today2 name2 rid s2 e2 st1
       = Some (st_success t2, st2) /\
       requests_df st2 = requests_df st1 ++ [row] /\
       status row = "Confirmed") /\
  (ranges_overlap s2 e2 s1 e1 ->
     exists st2 row,
       request_form_submit today2 name2 rid s2 e2 st1
       = Some (st_warning, st2) /\
       requests_df st2 = requests_df st1 ++ [row] /\
       status row = "Waitlist").
Proof.
  intros Hok H1 H2 Hsub Hv Hfree.
  apply request_form_submit_success in Hsub.
  destruct Hsub as (_ & _ & ->).
  pose proof (ledger_ok_add_request name1 rid t s1 e1 "Confirmed" st0 Hok H1 H2)
    as Hok1.
  assert (Hb : blocked rid s2 e2
                 (requests_df (deactivate
                    (add_request name1 rid t s1 e1 "Confirmed" st0))) <->
               ranges_overlap s2 e2 s1 e1).
  { rewrite requests_df_add_request, blocked_app.
    rewrite (blocked_confirmed_entry rid s2 e2 s1 e1 _ name1 t H1 H2). tauto. }
  split; [|split].
  - intros r Hin Hid. rewrite resources_df_add_request_confirmed in Hin.
    now apply (loc_set_emptied rid (resources_df st0)).
  - intros Hno.
    rewrite (request_form_submit_valid _ _ rid _ _ _ Hv).
    rewrite (proj2 (is_resource_available_true rid s2 e2 _ Hok1))
      by (rewrite Hb; exact Hno).
    cbn [bind]. do 3 eexists. split; [reflexivity|].
    rewrite (requests_df_add_request name2). split; reflexivity.
  - intros Hov.
    rewrite (request_form_submit_valid _ _ rid _ _ _ Hv).
    rewrite (proj2 (is_resource_available_false rid s2 e2 _ Hok1))
      by (rewrite Hb; exact Hov).
    cbn [bind]. do 2 eexists. split; [reflexivity|].
    rewrite (requests_df_add_request name2). split; reflexivity.
Qed.

End BookingFacts.

(** ** Invariants of the states the forms can build *)

Module LedgerInvariants.

Import PyDate Booking PyDateFacts AvailabilityFacts BookingFacts.
Open Scope string_scope.
Open Scope list_scope.

Lemma fold_left_max_bounds (xs : list Z) (x : Z) :
  (x <= fold_left Z.max xs x)%Z /\
  Forall (fun y => (y <= fold_left Z.max xs x)%Z) xs /\
  In (fold_left Z.max xs x) (x :: xs).
Proof.
  revert x. induction xs as [|y xs IH]; intros x; cbn [fold_left].
  - split; [lia|]. split; [constructor | now left].
  - destruct (IH (Z.max x y)) as (Hle & Hall & Hin). split; [lia|]. split.
    + constructor; [lia | exact Hall].
    + destruct Hin as [Heq | Hin]; [|now right; right].
      rewrite <- Heq. destruct (Z.max_spec x y) as [[_ ->] | [_ ->]];
        [right; now left | now left].
Qed.

Lemma int64_in_range (z : Z) : in_int64 z -> int64 z = z.
Proof.
  unfold in_int64, int64, INT64_MIN, INT64_MAX.
  change (2 ^ 63)%Z with 9223372036854775808%Z.
  change (2 ^ 64)%Z with 18446744073709551616%Z.
  intros Hz. rewrite Z.mod_small; lia.
Qed.

Lemma int64_past_max : int64 (INT64_MAX + 1) = INT64_MIN.
Proof. reflexivity. Qed.

(** The greatest entry of a column is the one entry no other exceeds. *)
Lemma col_max_unique (x : Z) (xs : list Z) (m : Z) :
  In m (x :: xs) -> Forall (fun y => (y <= m)%Z) (x :: xs) ->
  fold_left Z.max xs x = m.
Proof.
  intros Hin Hall. destruct (fold_left_max_bounds xs x) as (Hle & Hxs & Hmax).
  rewrite Forall_forall in Hall. specialize (Hall _ Hmax).
  assert (Hm : (m <= fold_left Z.max xs x)%Z).
  { destruct Hin as [<- | Hin]; [exact Hle|].
    rewrite Forall_forall in Hxs. now apply Hxs. }
  lia.
Qed.

(** Below the greatest 64-bit integer the new identifier is one more than
    the greatest one present. *)
Lemma next_id_max (x : Z) (xs : list Z) :
  Forall in_int64 (x :: xs) ->
  Forall (fun y => (y < INT64_MAX)%Z) (x :: xs) ->
  In (next_id (x :: xs) - 1)%Z (x :: xs) /\
  Forall (fun y => (y <= next_id (x :: xs) - 1)%Z) (x :: xs).
Proof.
  intros Hrange Hbelow. unfold next_id.
  destruct (fold_left_max_bounds xs x) as (Hle & Hall & Hin).
  rewrite Forall_forall in Hrange, Hbelow.
  specialize (Hrange _ Hin). specialize (Hbelow _ Hin).
  rewrite int64_in_range by (unfold in_int64 in *; lia).
  replace (fold_left Z.max xs x + 1 - 1)%Z with (fold_left Z.max xs x) by lia.
  split; [exact Hin|]. constructor; assumption.
Qed.

Lemma next_id_above (col : list Z) :
  Forall in_int64 col ->
  Forall (fun y => (y < INT64_MAX)%Z) col ->
  Forall (fun y => (y < next_id col)%Z) col.
Proof.
  destruct col as [|x xs]; [constructor|]. intros Hrange Hbelow.
  destruct (next_id_max x xs Hrange Hbelow) as [_ Hall].
  eapply Forall_impl; [|exact Hall]. cbn beta. intros; lia.
Qed.

Lemma NoDup_snoc_next_id (col : list Z) :
  Forall in_int64 col ->
  Forall (fun y => (y < INT64_MAX)%Z) col ->
  NoDup col -> NoDup (col ++ [next_id col]).
Proof.
  intros Hrange Hbelow Hnd.
  apply NoDup_app; [exact Hnd | repeat constructor; intros [] |].
  intros a Ha [<- | []].
  pose proof (next_id_above col Hrange Hbelow) as Hab.
  rewrite Forall_forall in Hab. specialize (Hab _ Ha). lia.
Qed.

(** At the greatest 64-bit integer the sum wraps around. *)
Lemma next_id_wraps (x : Z) (xs : list Z) :
  Forall in_int64 (x :: xs) -> In INT64_MAX (x :: xs) ->
  next_id (x :: xs) = INT64_MIN.
Proof.
  intros Hrange Hin. unfold next_id.
  rewrite (col_max_unique x xs INT64_MAX Hin); [exact int64_past_max|].
  eapply Forall_impl; [|exact Hrange]. unfold in_int64. cbn beta. intros; lia.
Qed.

Lemma zrange_snoc (lo : Z) (n : nat) :
  zrange lo (S n) = zrange lo n ++ [(lo + Z.of_nat n)%Z].
Proof. unfold zrange. now rewrite seq_S, map_app. Qed.

Lemma zrange_bounds (x lo : Z) (n : nat) :
  In x (zrange lo n) -> (lo <= x < lo + Z.of_nat n)%Z.
Proof.
  unfold zrange. intros H. apply in_map_iff in H.
  destruct H as (i & <- & Hi). apply in_seq in Hi. lia.
Qed.

Lemma zrange_unique_positive (n : nat) : unique_positive (zrange 1 n).
Proof.
  split.
  - induction n as [|n IH]; [constructor|]. rewrite zrange_snoc.
    apply NoDup_app; [exact IH | repeat constructor; intros [] |].
    intros a Ha [<- | []]. apply zrange_bounds in Ha. lia.
  - apply Forall_forall. intros x Hx. apply zrange_bounds in Hx. lia.
Qed.

(** On a column numbered from 1 the new identifier continues the
    numbering, as long as it is a 64-bit integer. *)
Lemma next_id_zrange (n : nat) :
  (Z.of_nat n < INT64_MAX)%Z ->
  next_id (zrange 1 n) = (1 + Z.of_nat n)%Z.
Proof.
  intros Hn. destruct n as [|n]; [reflexivity|].
  destruct (zrange 1 (S n)) as [|x xs] eqn:E; [discriminate E|].
  assert (Hr : forall y, In y (x :: xs) ->
                 (1 <= y < 1 + Z.of_nat (S n))%Z)
    by (intros y Hy; rewrite <- E in Hy; now apply zrange_bounds).
  assert (Hmax : In (1 + Z.of_nat n)%Z (x :: xs))
    by (rewrite <- E; apply (PyDateFacts.zrange_In _ 1 (S n)); lia).
  unfold next_id. rewrite (col_max_unique x xs (1 + Z.of_nat n)%Z Hmax).
  - rewrite int64_in_range; [lia|].
    unfold in_int64, INT64_MIN, INT64_MAX in *.
    change (2 ^ 63)%Z with 9223372036854775808%Z in *. lia.
  - apply Forall_forall. intros y Hy. specialize (Hr y Hy). lia.
Qed.

Lemma numbered_snoc (col : list Z) :
  (Z.of_nat (List.length col) < INT64_MAX)%Z ->
  numbered col -> numbered (col ++ [next_id col]).
Proof.
  unfold numbered. intros Hn H. rewrite length_app. cbn [List.length].
  rewrite Nat.add_1_r, zrange_snoc. rewrite H at 2.
  rewrite next_id_zrange by exact Hn. now rewrite <- H.
Qed.

Lemma map_id_loc_set (rid : Z) (setter : Resource -> Resource)
  (df : list Resource) :
  (forall r, id (setter r) = id r) ->
  map id (loc_set rid setter df) = map id df.
Proof.
  intros Hset. unfold loc_set. rewrite map_map. apply map_ext.
  intros r. destruct (id r =? rid)%Z; [apply Hset | reflexivity].
Qed.

Lemma map_id_add_request (name : string) (rid : Z) (t : cell) (s e : date)
  (status0 : string) (st : State) :
  map id (resources_df (add_request name rid t s e status0 st)) =
  map id (resources_df st).
Proof.
  unfold add_request. cbn [resources_df].
  destruct (status0 =? "Confirmed"); [|reflexivity].
  now rewrite !map_id_loc_set.
Qed.

(** What a submit of the request form can do to the state. *)
Lemma request_form_submit_cases (today : date) (name : string) (rid : Z)
  (s e : date) (st st' : State) (fb : Feedback) :
  request_form_submit today name rid s e st = Some (fb, st') ->
  st' = st \/
  exists t status0,
    (status0 = "Confirmed" \/ status0 = "Waitlist") /\
    st' = deactivate (add_request name rid t s e status0 st).
Proof.
  unfold request_form_submit.
  destruct (validate_dates today s e) as [[|] msg]; cbn [negb].
  - destruct (PyStr.strip name =? "").
    + intros H. injection H as _ <-. now left.
    + destruct (is_resource_available rid s e (requests_df st)) as [[|]|];
        cbn [bind]; [| |discriminate]; intros H; injection H as _ <-;
        right; eauto.
  - intros H. injection H as _ <-. now left.
Qed.

(** What a submit of the offer form can do to the state. *)
Lemma offer_form_submit_cases (today : date) (t c d l : string) (s e : date)
  (cond : string) (r : Z) (st : State) :
  snd (offer_form_submit today t c d l s e cond r st) = st \/
  snd (offer_form_submit today t c d l s e cond r st) =
  mkState
    (resources_df st ++
     [mkResource (next_id (map id (resources_df st))) t c d l
        (strftime s) (strftime e) cond r])
    (requests_df st) (request_active st).
Proof.
  unfold offer_form_submit.
  destruct (validate_dates today s e) as [[|] msg]; cbn [negb];
    [|now left].
  destruct ((PyStr.strip t =? "") || (PyStr.strip l =? "")); [now left|].
  now right.
Qed.

Lemma invariant_add_request (name : string) (rid : Z) (t : cell) (s e : date)
  (status0 : string) (st : State) :
  status0 = "Confirmed" \/ status0 = "Waitlist" ->
  date_ok s = true -> date_ok e = true ->
  invariant st ->
  invariant (deactivate (add_request name rid t s e status0 st)).
Proof.
  intros Hst Hs He (Hstat & Hok). unfold invariant.
  rewrite requests_df_add_request. split.
  - apply Forall_app. split; [exact Hstat|]. constructor; [exact Hst|constructor].
  - apply ledger_ok_app; [exact Hok|]. constructor; [|constructor].
    now apply iso_dates_written.
Qed.

Lemma reachable_invariant (st : State) : reachable st -> invariant st.
Proof.
  induction 1 as [ | today t c d l s e cond r st _ IH Hs He
                   | st _ IH
                   | today name rid s e st fb st' _ IH _ Hs He Hsub ].
  - split; constructor.
  - destruct (offer_form_submit_cases today t c d l s e cond r st) as [-> | ->];
      exact IH.
  - exact IH.
  - destruct (request_form_submit_cases _ _ _ _ _ _ _ _ Hsub)
      as [-> | (t & status0 & Hst & ->)]; [exact IH|].
    now apply invariant_add_request.
Qed.

(** The states built from the empty frames number their rows from 1, as
    far as 64-bit integers reach. *)
Lemma reachable_numbered (st : State) :
  reachable st ->
  ((Z.of_nat (List.length (resources_df st)) <= INT64_MAX)%Z ->
   numbered (map id (resources_df st))) /\
  ((Z.of_nat (List.length (requests_df st)) <= INT64_MAX)%Z ->
   numbered (map request_id (requests_df st))).
Proof.
  induction 1 as [ | today t c d l s e cond r st _ IH Hs He
                   | st _ IH
                   | today name rid s e st fb st' _ IH _ Hs He Hsub ].
  - split; reflexivity.
  - destruct (offer_form_submit_cases today t c d l s e cond r st) as [-> | ->];
      [exact IH|].
    cbn [resources_df requests_df]. split; [|exact (proj2 IH)].
    rewrite length_app. cbn [List.length]. intros Hn.
    rewrite map_app. cbn [map id].
    apply numbered_snoc; [rewrite length_map; lia | apply (proj1 IH); lia].
  - exact IH.
  - destruct (request_form_submit_cases _ _ _ _ _ _ _ _ Hsub)
      as [-> | (t & status0 & _ & ->)]; [exact IH|].
    rewrite requests_df_add_request.
    change (resources_df (deactivate ?x)) with (resources_df x).
    rewrite map_id_add_request. split.
    { rewrite <- (length_map id (resources_df (add_request _ _ _ _ _ _ _))).
      rewrite map_id_add_request, length_map. exact (proj1 IH). }
    rewrite length_app. cbn [List.length]. intros Hn.
    rewrite map_app. cbn [map request_id].
    apply numbered_snoc; [rewrite length_map; lia | apply (proj2 IH); lia].
Qed.

Lemma count_status_zero (s : string) (requests : list Request) :
  Forall (fun row => status row <> s) requests ->
  count_status s requests = 0%nat.
Proof.
  unfold count_status. induction 1 as [|row rest Hrow _ IH]; [reflexivity|].
  cbn [filter]. apply String.eqb_neq in Hrow. now rewrite Hrow.
Qed.

Lemma booking_status_not (s : string) (requests : list Request) :
  s <> "Confirmed" -> s <> "Waitlist" ->
  Forall booking_status requests ->
  Forall (fun row => status row <> s) requests.
Proof.
  intros H1 H2. apply Forall_impl. intros row [-> | ->]; congruence.
Qed.

(** C8, as the code has it.  A new resource gets the identifier
    [max(existing ids) + 1], or 1 in an empty store, and a new request the
    identifier [max(existing request_ids) + 1], or 1 in an empty ledger,
    the sum being taken on 64-bit integers: it is one more than the
    greatest identifier as long as the identifiers are below the greatest
    64-bit integer.  In every state built from the empty frames by the forms
    alone, a frame of at most [2^63 - 1] rows has identifiers that are
    positive and pairwise different. *)
Theorem identifiers_are_max_plus_one :
  next_id [] = 1%Z /\
  (forall x xs,
     Forall in_int64 (x :: xs) ->
     Forall (fun y => (y < INT64_MAX)%Z) (x :: xs) ->
     In (next_id (x :: xs) - 1)%Z (x :: xs) /\
     Forall (fun y => (y <= next_id (x :: xs) - 1)%Z) (x :: xs)) /\
  (forall today t c d l s e cond r st t' st',
     offer_form_submit today t c d l s e cond r st = (st_success t', st') ->
     exists row,
       resources_df st' = resources_df st ++ [row] /\
       id row = next_id (map id (resources_df st))) /\
  (forall name rid t s e status0 st,
     exists row,
       requests_df (add_request name rid t s e status0 st)
       = requests_df st ++ [row] /\
       request_id row = next_id (map request_id (requests_df st))) /\
  (forall st, reachable st ->
     ((Z.of_nat (List.length (resources_df st)) <= INT64_MAX)%Z ->
      unique_positive (map id (resources_df st))) /\
     ((Z.of_nat (List.length (requests_df st)) <= INT64_MAX)%Z ->
      unique_positive (map request_id (requests_df st)))).
Proof.
  split; [reflexivity|]. split; [exact next_id_max|]. split; [|split].
  - intros today t c d l s e cond r st t' st'. unfold offer_form_submit.
    destruct (validate_dates today s e) as [[|] msg]; cbn [negb];
      [|discriminate].
    destruct ((PyStr.strip t =? "") || (PyStr.strip l =? ""));
      [discriminate|].
    intros H. injection H as _ <-. eexists. split; reflexivity.
  - intros. eexists. split; reflexivity.
  - intros st Hst. destruct (reachable_numbered st Hst) as [H1 H2].
    split; intros Hn.
    + rewrite (H1 Hn). apply zrange_unique_positive.
    + rewrite (H2 Hn). apply zrange_unique_positive.
Qed.

(** C9.  The counters of the Home page and of the dashboard compare the
    status with ["confirmed"] and ["requested"], the booking path writes
    ["Confirmed"] and ["Waitlist"] only; hence in every state built by the
    forms alone the confirmed counter and the waitlist counter of both pages
    are 0, whatever the number of requests. *)
Theorem status_counters_are_zero (st : State) :
  reachable st ->
  Forall booking_status (requests_df st) /\
  home_confirmed_requests st = 0%nat /\
  home_waitlist_requests st = 0%nat /\
  dashboard_confirmed st = 0%nat /\
  dashboard_waitlist st = 0%nat.
Proof.
  intros Hst. destruct (reachable_invariant st Hst) as (Hstat & _).
  split; [exact Hstat|].
  unfold home_confirmed_requests, home_waitlist_requests,
    dashboard_confirmed, dashboard_waitlist.
  repeat split; apply count_status_zero;
    apply booking_status_not; trivial; discriminate.
Qed.

End LedgerInvariants.

(** ** The score and the result loop of [search] *)

Module SearchFacts.

Import Booking Search.
Open Scope string_scope.
Open Scope list_scope.
Open Scope Q_scope.

Lemma half (d : Q) : d / 2 == d * (1 # 2).
Proof. field. Qed.

Lemma py_max_cases (a b : Q) :
  (b <= a /\ py_max a b = a) \/ (a < b /\ py_max a b = b).
Proof.
  unfold py_max. destruct (Qle_bool b a) eqn:H.
  - left. split; [now apply Qle_bool_iff | reflexivity].
  - right. split; [|reflexivity].
    apply Qnot_le_lt. intros Hle. apply Qle_bool_iff in Hle. congruence.
Qed.

Lemma score_max (d : Q) : score d == Qmax (1 - d / 2) 0.
Proof.
  unfold score. destruct (py_max_cases (1 - d / 2) 0) as [[H ->] | [H ->]].
  - symmetry. now apply Q.max_l.
  - symmetry. apply Q.max_r. now apply Qlt_le_weak.
Qed.

Lemma score_nonneg (d : Q) : 0 <= score d.
Proof.
  unfold score. destruct (py_max_cases (1 - d / 2) 0) as [[H ->] | [H ->]];
    [exact H | apply Qle_refl].
Qed.

Lemma score_antitone (d1 d2 : Q) : d1 <= d2 -> score d2 <= score d1.
Proof.
  intros Hd. unfold score.
  destruct (py_max_cases (1 - d1 / 2) 0) as [[H1 ->] | [H1 ->]];
  destruct (py_max_cases (1 - d2 / 2) 0) as [[H2 ->] | [H2 ->]];
    rewrite ?half in *; lra.
Qed.

(** Every row the loop adds comes from a kept entry. *)
Lemma search_loop_from_hit (df : list Resource) (k : nat) (P : scored -> Prop)
  (hits : list hit) :
  Forall (fun h => forall row, nonneg h = true ->
                   iloc df (snd h) = Some row -> P (row, score (fst h))) hits ->
  forall acc res,
    Forall P acc -> search_loop df k hits acc = Some res -> Forall P res.
Proof.
  induction 1 as [|[dist idx] rest Hh _ IH]; intros acc res Hacc; cbn [search_loop].
  - intros H. injection H as <-. exact Hacc.
  - unfold nonneg in Hh. cbn [fst snd] in Hh.
    destruct (Qle_bool 0 dist).
    + destruct (iloc df idx) as [row|]; cbn [bind]; [|discriminate].
      assert (Hacc' : Forall P (acc ++ [(row, score dist)])).
      { apply Forall_app. split; [exact Hacc|]. constructor; [auto|constructor]. }
      destruct (k <=? _)%nat.
      * intros H. injection H as <-. exact Hacc'.
      * now apply IH.
    + cbn [bind]. destruct (k <=? _)%nat.
      * intros H. injection H as <-. exact Hacc.
      * now apply IH.
Qed.

(** C6.  The score attached to a result is [max(1 - d/2, 0)] of the
    distance [d] of the entry it comes from; as a function of the distance
    it is never negative and it does not increase when the distance
    grows. *)
Theorem score_is_clamped_and_decreasing :
  (forall d, score d == Qmax (1 - d / 2) 0) /\
  (forall d, 0 <= score d) /\
  (forall d1 d2, d1 <= d2 -> score d2 <= score d1) /\
  (forall df k hits res,
     search_loop df k hits [] = Some res -> Forall (from_hit df hits) res).
Proof.
  split; [exact score_max|]. split; [exact score_nonneg|].
  split; [exact score_antitone|].
  intros df k hits res. apply search_loop_from_hit; [|constructor].
  apply Forall_forall. intros h Hin row Hn Hrow.
  exists h. cbn [fst snd]. auto.
Qed.

Lemma mapM_length {A B : Type} (f : A -> option B) (l : list A) (r : list B) :
  mapM f l = Some r -> List.length r = List.length l.
Proof.
  revert r. induction l as [|x xs IH]; intros r; cbn [mapM].
  - intros H. now injection H as <-.
  - destruct (f x) as [y|]; cbn [bind]; [|discriminate].
    destruct (mapM f xs) as [ys|]; cbn [bind]; [|discriminate].
    intros H. injection H as <-. cbn. f_equal. now apply IH.
Qed.

Lemma mapM_total {A B : Type} (f : A -> option B) (l : list A) :
  Forall (fun x => is_some (f x) = true) l -> exists r, mapM f l = Some r.
Proof.
  induction 1 as [|x xs Hx _ [ys IH]]; cbn [mapM]; [now eexists|].
  destruct (f x) as [y|]; [|discriminate]. rewrite IH. now eexists.
Qed.

Lemma mapM_attach_scores (df : list Resource) (l : list hit) (r : list scored) :
  mapM (attach df) l = Some r ->
  map snd r = map (fun h => score (fst h)) l.
Proof.
  revert r. induction l as [|h hs IH]; intros r; cbn [mapM].
  - intros H. now injection H as <-.
  - unfold attach at 1. destruct (iloc df (snd h)) as [row|]; cbn [bind];
      [|discriminate].
    destruct (mapM (attach df) hs) as [ys|]; cbn [bind]; [|discriminate].
    intros H. injection H as <-. cbn. f_equal. now apply IH.
Qed.

(** The loop with [results_list] of length below [k]: it completes the
    accumulator with the first [k - len(results_list)] kept entries. *)
Lemma search_loop_acc (df : list Resource) (k : nat) (hits : list hit) :
  forall acc, (List.length acc < k)%nat ->
    search_loop df k hits acc =
    (rows <- mapM (attach df)
               (firstn (k - List.length acc) (filter nonneg hits)) ;;
     Some (acc ++ rows)).
Proof.
  induction hits as [|[dist idx] rest IH]; intros acc Hlen.
  - cbn. rewrite firstn_nil. cbn. now rewrite app_nil_r.
  - cbn [search_loop filter]. unfold nonneg at 1. cbn [fst].
    destruct (Qle_bool 0 dist).
    + destruct (k - List.length acc)%nat as [|m] eqn:Hm; [lia|].
      cbn [firstn mapM]. unfold attach at 1. cbn [fst snd].
      destruct (iloc df idx) as [row|]; cbn [bind]; [|reflexivity].
      destruct (k <=? _)%nat eqn:Hk.
      * apply Nat.leb_le in Hk. rewrite length_app in Hk. cbn in Hk.
        replace m with 0%nat by lia. reflexivity.
      * apply Nat.leb_gt in Hk. rewrite (IH _ Hk).
        rewrite length_app. cbn [List.length].
        replace (k - (List.length acc + 1))%nat with m by lia.
        destruct (mapM (attach df) (firstn m (filter nonneg rest)));
          cbn [bind]; [|reflexivity].
        now rewrite <- app_assoc.
    + cbn [bind].
      destruct (k <=? _)%nat eqn:Hk; [apply Nat.leb_le in Hk; lia|].
      now apply IH.
Qed.

Lemma search_loop_first_k (df : list Resource) (k : nat) (hits : list hit) :
  List.length hits = (k * 2)%nat ->
  search_loop df k hits [] = spec_search df k hits.
Proof.
  intros Hlen. unfold spec_search. destruct k as [|k].
  - destruct hits; [reflexivity | discriminate].
  - rewrite search_loop_acc by (cbn; lia). cbn [List.length].
    rewrite Nat.sub_0_r.
    now destruct (mapM (attach df) (firstn (S k) (filter nonneg hits))).
Qed.

Lemma firstn_incl {A : Type} (n : nat) (l : list A) (x : A) :
  In x (firstn n l) -> In x l.
Proof.
  revert n. induction l as [|y l IH]; intros [|n]; cbn; try tauto.
  intros [-> | H]; [now left | right; now apply (IH n)].
Qed.

Lemma StronglySorted_firstn {A : Type} (R : A -> A -> Prop) (n : nat)
  (l : list A) : StronglySorted R l -> StronglySorted R (firstn n l).
Proof.
  intros H. revert n. induction H as [|x l Hl IH Hx]; intros [|n]; cbn;
    try constructor.
  - apply IH.
  - rewrite Forall_forall in *. intros y Hy. apply Hx.
    now apply (firstn_incl n l).
Qed.

Lemma descending_scores (l : list hit) :
  StronglySorted Qle (map fst l) ->
  descending (map (fun h => score (fst h)) l).
Proof.
  unfold descending. induction l as [|h hs IH]; cbn [map]; intros H.
  - constructor.
  - apply StronglySorted_inv in H. destruct H as [Hs Hh]. constructor; [auto|].
    rewrite Forall_forall in *. intros y Hy. apply in_map_iff in Hy.
    destruct Hy as (h' & <- & Hin). apply score_antitone. apply Hh.
    now apply in_map.
Qed.

Lemma score_spec (d : Q) : score d = spec_score d.
Proof.
  unfold score, py_max, spec_score, Qmax, GenericMinMax.gmax.
  unfold Qle_bool, Qcompare. cbn [Qnum Qden].
  destruct (Z.leb_spec (0 * QDen (1 - d / 2)) (Qnum (1 - d / 2) * 1));
    destruct (Z.compare_spec (Qnum (1 - d / 2) * 1) (0 * QDen (1 - d / 2)));
    try reflexivity; lia.
Qed.

Lemma nonneg_spec (h : hit) : nonneg h = negb (negative (fst h)).
Proof.
  unfold nonneg, negative, Qle_bool, Qcompare. cbn [Qnum Qden].
  destruct (Z.leb_spec (0 * QDen (fst h)) (Qnum (fst h) * 1));
    destruct (Z.compare_spec (Qnum (fst h) * 1) (0 * QDen (fst h)));
    try reflexivity; lia.
Qed.

Lemma mapM_ext {A B : Type} (f g : A -> option B) (l : list A) :
  (forall x, f x = g x) -> mapM f l = mapM g l.
Proof.
  intros H. induction l as [|x xs IH]; [reflexivity|].
  cbn [mapM]. now rewrite H, IH.
Qed.

Lemma spec_search_result (df : list Resource) (k : nat) (hits : list hit) :
  spec_search df k hits = spec_result df k hits.
Proof.
  unfold spec_search, spec_result.
  rewrite (filter_ext nonneg (fun h => negb (negative (fst h))) nonneg_spec).
  apply mapM_ext. intros h. unfold attach. now rewrite score_spec.
Qed.

(** C5.  For [k >= 1], the domain of the index, [search(query, k)] scans
    the [2k] retrieved entries in their retrieved order, drops the entries
    whose distance is negative, attaches the score [max(1 - d/2, 0)] to
    each kept one and stops at [k] results: the result is the first [k]
    kept entries, in order, each with that score.  Hence it has at most [k]
    rows; when the kept entries come in ascending distance the scores come
    from best to worst; and it returns whenever every kept entry points
    into the frame. *)
Theorem search_keeps_first_k
  (retrieve : string -> nat -> list hit) (df : list Resource)
  (query : string) (k : nat) :
  (1 <= k)%nat ->
  List.length (retrieve query (k * 2)%nat) = (k * 2)%nat ->
  search retrieve df query k
  = spec_result df k (retrieve query (k * 2)%nat) /\
  (forall res, search retrieve df query k = Some res ->
     (List.length res <= k)%nat /\
     (StronglySorted Qle
        (map fst (filter (fun h => negb (negative (fst h)))
                    (retrieve query (k * 2)%nat))) ->
      descending (map snd res))) /\
  (hits_in_range df (retrieve query (k * 2)%nat) ->
   exists res, search retrieve df query k = Some res).
Proof.
  intros _ Hlen. unfold search. rewrite (search_loop_first_k df k _ Hlen).
  split; [apply spec_search_result|]. unfold spec_search. split.
  - intros res Hres. split.
    + rewrite (mapM_length _ _ _ Hres). apply firstn_le_length.
    + rewrite <- (filter_ext nonneg _ nonneg_spec).
      intros Hsorted. rewrite (mapM_attach_scores df _ _ Hres).
      apply descending_scores. rewrite <- firstn_map.
      now apply StronglySorted_firstn.
  - intros Hrange. apply mapM_total. apply Forall_forall. intros h Hin.
    apply firstn_incl in Hin. apply filter_In in Hin.
    destruct Hin as [Hin Hn]. unfold hits_in_range in Hrange.
    rewrite Forall_forall in Hrange. specialize (Hrange h Hin Hn).
    unfold attach. now destruct (iloc df (snd h)).
Qed.

Lemma iloc_nil (idx : Z) : iloc [] idx = None.
Proof.
  unfold iloc. cbn [List.length Z.of_nat].
  destruct ((0 <=? idx)%Z && (idx <? 0)%Z) eqn:H1; [lia|].
  destruct ((- 0 <=? idx)%Z && (idx <? 0)%Z) eqn:H2; [lia|]. reflexivity.
Qed.

Lemma search_loop_nil (k : nat) (hits : list hit) (res : list scored) :
  search_loop [] k hits [] = Some res -> res = [].
Proof.
  intros H.
  assert (HF : Forall (fun _ : scored => False) res).
  { apply (search_loop_from_hit [] k (fun _ => False) hits) with (acc := []);
      [|constructor|exact H].
    apply Forall_forall. intros h _ row _ Hrow. rewrite iloc_nil in Hrow.
    discriminate. }
  destruct res as [|r res]; [reflexivity|]. now inversion HF.
Qed.

Lemma search_loop_all_negative (df : list Resource) (k : nat) (hits : list hit) :
  Forall (fun h => nonneg h = false) hits ->
  search_loop df k hits [] = Some [].
Proof.
  induction 1 as [|[dist idx] rest Hh _ IH]; [reflexivity|].
  cbn [search_loop]. unfold nonneg in Hh. cbn [fst] in Hh. rewrite Hh.
  cbn [bind List.length]. destruct (k <=? 0)%nat; [reflexivity | exact IH].
Qed.




End SearchFacts.

(** ** The properties at work on the small community *)

Module Scenarios.

Import PyDate Booking Search Demo.
Import PyDateFacts AvailabilityFacts BookingFacts LedgerInvariants SearchFacts.
Open Scope string_scope.
Open Scope list_scope.

Lemma demo_reachable : reachable st3.
Proof.
  assert (R1 : reachable offered1).
  { exact (reach_offer today "Drill" "Tools" "Cordless drill" "Pune"
             today dec31 "Good" 4 initial reach_initial eq_refl eq_refl). }
  assert (R2 : reachable offered2).
  { exact (reach_offer today "Tent" "Outdoor" "Two person tent" "Nashik"
             today dec31 "Excellent" 5 offered1 R1 eq_refl eq_refl). }
  assert (R3 : reachable st1).
  { apply (reach_request today "Asha" 1 (jun 1) (jun 10) st0
             (st_success (scalar "Drill")) st1); try reflexivity.
    exact (reach_activate offered2 R2). }
  assert (R4 : reachable st2).
  { apply (reach_request today "Ravi" 1 (jun 11) (jun 15) st1a
             (st_success (scalar "Drill")) st2); try reflexivity.
    exact (reach_activate st1 R3). }
  apply (reach_request today "Meera" 1 (jun 5) (jun 7) st2a st_warning st3);
    try reflexivity.
  exact (reach_activate st2 R4).
Qed.

Lemma demo_ledger_ok : ledger_ok (requests_df st2).
Proof. repeat constructor. Qed.

(** Scenarios 2 and 3 of the specification: with the drill confirmed for
    1-10 June, 5-7 June is refused and 11-15 June is free. *)
Example scenario_overlap :
  is_resource_available 1 (jun 5) (jun 7) (requests_df st1) = Some false.
Proof. reflexivity. Qed.

Example scenario_adjacent :
  is_resource_available 1 (jun 11) (jun 15) (requests_df st1) = Some true.
Proof. reflexivity. Qed.

Lemma is_resource_available_iff_overlap_witness :
  blocked 1 (jun 5) (jun 7) (requests_df st1) /\
  ~ blocked 1 (jun 11) (jun 15) (requests_df st1) /\
  is_resource_available 2 (jun 5) (jun 7) (requests_df st1) = Some true.
Proof.
  assert (Hok : ledger_ok (requests_df st1)) by (repeat constructor).
  split; [|split].
  - apply (proj1 (is_resource_available_iff_overlap 1 (jun 5) (jun 7)
                    (requests_df st1) Hok)). reflexivity.
  - apply (proj1 (proj2 (is_resource_available_iff_overlap 1 (jun 11) (jun 15)
                           (requests_df st1) Hok))). reflexivity.
  - apply (proj2 (proj2 (is_resource_available_iff_overlap 2 (jun 5) (jun 7)
                           (requests_df st1) Hok))).
    intros row [<- | []] Hid. discriminate Hid.
Defined.

Lemma demo_validation (name : string) (s e : date) :
  fst (validate_dates today s e) = true ->
  PyStr.all_space name = false ->
  passes_validation today name s e.
Proof.
  intros Hv Hn. split; [exact Hv|]. intros Hs.
  apply strip_empty_all_space in Hs. congruence.
Qed.

Lemma rebooking_follows_ledger_witness :
  exists t2 st row,
    request_form_submit today "Ravi" 1 (jun 11) (jun 15) st1
    = Some (st_success t2, st) /\
    requests_df st = requests_df st1 ++ [row] /\
    status row = "Confirmed".
Proof.
  refine (proj1 (proj2 (rebooking_follows_ledger today today "Asha" "Ravi" 1
            (jun 1) (jun 10) (jun 11) (jun 15) st0 st1 (scalar "Drill")
            _ eq_refl eq_refl eq_refl _ _)) _).
  - constructor.
  - apply demo_validation; reflexivity.
  - intros (row & [] & _).
  - intros [H _]. discriminate H.
Defined.

(** C2 fails on the code: after Asha's Confirmed booking of the drill for
    1-10 June, which empties the drill's availability fields, Ravi's
    request for 11-15 June is Confirmed, not Waitlist. *)
Lemma single_confirmation_refuted :
  request_form_submit today "Ravi" 1 (jun 11) (jun 15) st1
  = Some (st_success (scalar "Drill"), st2) /\
  ~ Statements.single_confirmation.
Proof.
  split; [reflexivity|]. intros Hclaim.
  destruct (Hclaim today today "Asha" "Ravi" 1%Z (jun 1) (jun 10)
              (jun 11) (jun 15) st0 (scalar "Drill") st1)
    as (st & row & Hsub & _); try reflexivity.
  - constructor.
  - apply demo_validation; reflexivity.
  - intros [H _]. discriminate H.
  - discriminate Hsub.
Qed.

Lemma submit_appends_one_request_witness :
  exists available fb st' row,
    is_resource_available 1 (jun 5) (jun 7) (requests_df st2) = Some available /\
    request_form_submit today "Meera" 1 (jun 5) (jun 7) st2 = Some (fb, st') /\
    requests_df st' = requests_df st2 ++ [row] /\
    resource_id row = 1%Z /\ user_name row = "Meera" /\
    start_date row = strftime (jun 5) /\ end_date row = strftime (jun 7) /\
    (available = true ->
       status row = "Confirmed" /\
       cleared 1 (resources_df st2) (resources_df st')) /\
    (available = false ->
       status row = "Waitlist" /\ resources_df st' = resources_df st2).
Proof.
  apply (submit_appends_one_request today "Meera" 1 (jun 5) (jun 7) st2).
  - exact demo_ledger_ok.
  - apply demo_validation; reflexivity.
Defined.

Lemma validation_short_circuits_witness :
  request_form_submit today "Asha" 1 (jun 10) (jun 1) st0
  = Some (st_error InvalidDateRange, st0) /\
  request_form_submit (jun 5) "Asha" 1 (jun 1) (jun 10) st0
  = Some (st_error PastDate, st0) /\
  request_form_submit today "   " 1 (jun 1) (jun 10) st0
  = Some (st_error MissingUserName, st0).
Proof.
  split; [|split].
  - apply (proj1 (validation_short_circuits today "Asha" 1 (jun 10) (jun 1) st0)).
    reflexivity.
  - apply (proj1 (proj2 (validation_short_circuits (jun 5) "Asha" 1
                           (jun 1) (jun 10) st0))).
    + reflexivity.
    + left. reflexivity.
  - apply (proj2 (proj2 (validation_short_circuits today "   " 1
                           (jun 1) (jun 10) st0))); reflexivity.
Defined.

Lemma booking_ignores_resource_existence_witness :
  exists fb st' row,
    request_form_submit today "Asha" 99 (jun 1) (jun 10) st0 = Some (fb, st') /\
    (forall msg, fb <> st_error msg) /\
    requests_df st' = requests_df st0 ++ [row] /\
    resource_id row = 99%Z /\
    (status row = "Confirmed" \/ status row = "Waitlist") /\
    resources_df st' = resources_df st0 /\
    resource_title row = series [].
Proof.
  destruct (booking_ignores_resource_existence today "Asha" 99
              (jun 1) (jun 10) st0)
    as (fb & st' & row & Hsub & Hfb & Hreq & Hid & Hst & Habs).
  - constructor.
  - apply demo_validation; reflexivity.
  - exists fb, st', row. repeat (split; [assumption|]). apply Habs.
    intros r [<- | [<- | []]]; discriminate.
Defined.

Lemma identifiers_are_max_plus_one_witness :
  (In (next_id [7; 3] - 1)%Z [7; 3]%Z /\
   Forall (fun y => (y <= next_id [7; 3] - 1)%Z) [7; 3]%Z) /\
  (exists row,
     resources_df offered2 = resources_df offered1 ++ [row] /\
     id row = next_id (map id (resources_df offered1))) /\
  unique_positive (map id (resources_df st3)) /\
  unique_positive (map request_id (requests_df st3)).
Proof.
  destruct identifiers_are_max_plus_one as (_ & Hmax & Hoffer & _ & Hreach).
  split; [|split].
  - apply Hmax; repeat constructor; discriminate.
  - apply (Hoffer today "Tent" "Outdoor" "Two person tent" "Nashik"
             today dec31 "Excellent" 5%Z offered1 (scalar "Tent") offered2).
    reflexivity.
  - destruct (Hreach st3 demo_reachable) as [H1 H2].
    split; [apply H1 | apply H2]; discriminate.
Defined.

(** C8 fails on the code at the end of the 64-bit range: on a column that
    holds [2^63 - 1] the new identifier is [-2^63], not the maximum plus
    one and not positive. *)
Lemma id_is_max_plus_one_refuted :
  next_id [INT64_MAX] = INT64_MIN /\
  ~ Statements.id_is_max_plus_one.
Proof.
  split; [reflexivity|]. intros Hclaim.
  destruct (Hclaim INT64_MAX []) as (m & Hin & _ & Heq).
  - repeat constructor; discriminate.
  - destruct Hin as [<- | []]. discriminate Heq.
Qed.

Lemma status_counters_are_zero_witness :
  List.length (requests_df st3) = 3%nat /\
  home_confirmed_requests st3 = 0%nat /\
  home_waitlist_requests st3 = 0%nat /\
  dashboard_confirmed st3 = 0%nat /\
  dashboard_waitlist st3 = 0%nat.
Proof.
  split; [reflexivity|].
  exact (proj2 (status_counters_are_zero st3 demo_reachable)).
Defined.

Lemma ranked_sorted :
  StronglySorted Qle (map fst (filter nonneg (ranked "drill" (5 * 2)))).
Proof.
  cbn. repeat (constructor; [|repeat (constructor; [discriminate|]); constructor]).
  constructor.
Qed.

Lemma ranked_in_range : hits_in_range shelf (ranked "drill" (5 * 2)).
Proof. unfold hits_in_range. cbn. repeat constructor. Qed.

Lemma ranked_sorted_spec :
  StronglySorted Qle
    (map fst (filter (fun h => negb (negative (fst h)))
                (ranked "drill" (5 * 2)))).
Proof. exact ranked_sorted. Qed.

Lemma search_keeps_first_k_witness :
  search ranked shelf "drill" 5 = spec_result shelf 5 (ranked "drill" 10) /\
  exists res,
    search ranked shelf "drill" 5 = Some res /\
    (List.length res <= 5)%nat /\ descending (map snd res).
Proof.
  destruct (search_keeps_first_k ranked shelf "drill" 5 ltac:(lia) eq_refl)
    as (Heq & Hres & Htot).
  split; [exact Heq|].
  destruct (Htot ranked_in_range) as [res Hs]. exists res.
  split; [exact Hs|]. destruct (Hres res Hs) as [Hlen Hdesc].
  split; [exact Hlen | exact (Hdesc ranked_sorted_spec)].
Defined.

Lemma score_is_clamped_and_decreasing_witness :
  score (3 # 2) <= score (1 # 2) /\
  forall res, search ranked shelf "drill" 5 = Some res ->
              Forall (from_hit shelf (ranked "drill" 10)) res.
Proof.
  destruct score_is_clamped_and_decreasing as (_ & _ & Hmono & Hfrom).
  split.
  - apply Hmono. discriminate.
  - intros res Hres. exact (Hfrom shelf 5%nat (ranked "drill" 10) res Hres).
Defined.



End Scenarios.

(** ** Further properties: dates and ranges *)

Module RangeFacts.

Import PyDate Booking PyDateFacts AvailabilityFacts BookingFacts.
Open Scope string_scope.
Open Scope list_scope.

Lemma le_iff (a b : date) :
  le a b = true <->
  (year a < year b \/
   (year a = year b /\
    (month a < month b \/ (month a = month b /\ day a <= day b))))%Z.
Proof.
  unfold le, cmp.
  destruct (Z.compare_spec (year a) (year b));
    destruct (Z.compare_spec (month a) (month b));
    destruct (Z.compare_spec (day a) (day b));
    split; intros; try reflexivity; try discriminate; lia.
Qed.

Lemma le_refl (a : date) : le a a = true.
Proof. apply le_iff. lia. Qed.

Lemma le_trans (a b c : date) :
  le a b = true -> le b c = true -> le a c = true.
Proof. rewrite !le_iff. lia. Qed.

Lemma le_total (a b : date) : le a b = true \/ le b a = true.
Proof. rewrite !le_iff. lia. Qed.

Lemma le_antisym (a b : date) : le a b = true -> le b a = true -> a = b.
Proof.
  rewrite !le_iff. destruct a as [ya ma da], b as [yb mb db]. cbn.
  intros H1 H2. f_equal; lia.
Qed.

Lemma lt_not_le (a b : date) : lt a b = negb (le b a).
Proof. now rewrite lt_not_ge, ge_le. Qed.

Lemma gt_lt (a b : date) : gt a b = lt b a.
Proof. now rewrite gt_not_le, lt_not_le. Qed.

(** X1.  [validate_dates] accepts exactly the ranges with
    [today <= start <= end]; it reports the range message exactly when the
    start is after the end, and the past-date message exactly when the
    range is in order but starts before today, so the test on the end date
    never decides alone. *)
Theorem validate_dates_accepts_iff (today s e : date) :
  (validate_dates today s e = (true, "") <->
     le today s = true /\ le s e = true) /\
  (validate_dates today s e = (false, MSG_RANGE) <-> lt e s = true) /\
  (validate_dates today s e = (false, MSG_PAST) <->
     le s e = true /\ lt s today = true).
Proof.
  rewrite validate_dates_cases, gt_lt, !lt_not_le.
  destruct (le s e) eqn:Hse; cbn [negb].
  - destruct (le today s) eqn:Hts; cbn [negb orb].
    + rewrite (le_trans today s e Hts Hse). cbn [negb].
      repeat split; intros; try discriminate; try tauto.
      destruct H; discriminate.
    + repeat split; try discriminate; try tauto;
        intros H; try discriminate; destruct H; discriminate.
  - repeat split; try discriminate; try tauto;
      intros H; try discriminate; destruct H; discriminate.
Qed.

(** X2.  The overlap test of the availability checker does not depend on
    which range is the candidate; it fails exactly when one range ends
    before the other starts; and for two ranges in order it holds exactly
    when some day lies in both, the boundary days included. *)
Theorem overlap_is_sharing_a_day (s1 e1 s2 e2 : date) :
  (ranges_overlap s1 e1 s2 e2 <-> ranges_overlap s2 e2 s1 e1) /\
  (~ ranges_overlap s1 e1 s2 e2 <-> lt e1 s2 = true \/ lt e2 s1 = true) /\
  (le s1 e1 = true -> le s2 e2 = true ->
   (ranges_overlap s1 e1 s2 e2 <->
    exists d, le s1 d = true /\ le d e1 = true /\
              le s2 d = true /\ le d e2 = true)).
Proof.
  unfold ranges_overlap. rewrite !ge_le, !lt_not_le. split; [tauto|]. split.
  - destruct (le s1 e2), (le s2 e1); cbn; intuition congruence.
  - intros H1 H2. split.
    + intros [Ha Hb]. destruct (le_total s1 s2) as [H | H].
      * exists s2. repeat split; auto using le_refl.
      * exists s1. repeat split; auto using le_refl.
    + intros (d & Ha & Hb & Hc & Hd). split; eauto using le_trans.
Qed.

(** X3.  The dates [add_request] writes with [strftime] are the dates the
    availability checker reads back with [strptime], and two different
    dates are never written as the same text. *)
Theorem written_dates_read_back
  (name : string) (rid : Z) (t : cell) (s e : date) (status0 : string)
  (st : State) :
  date_ok s = true -> date_ok e = true ->
  (exists row,
     requests_df (add_request name rid t s e status0 st)
     = requests_df st ++ [row] /\
     strptime (start_date row) = Some s /\
     strptime (end_date row) = Some e) /\
  (forall d, date_ok d = true -> strftime d = strftime s -> d = s).
Proof.
  intros Hs He. split.
  - eexists. split; [reflexivity|]. cbn [start_date end_date].
    now rewrite (strptime_strftime s Hs), (strptime_strftime e He).
  - intros d Hd Heq. apply (f_equal strptime) in Heq.
    rewrite (strptime_strftime d Hd), (strptime_strftime s Hs) in Heq.
    now injection Heq.
Qed.

(** X4.  A ledger row that is not a Confirmed row of the resource, a
    Waitlist row or a row of another resource, has no influence on the
    availability check, wherever it stands in the ledger. *)
Theorem other_rows_never_block
  (rid : Z) (s e : date) (l1 l2 : list Request) (row : Request) :
  status row <> "Confirmed" \/ resource_id row <> rid ->
  is_resource_available rid s e (l1 ++ row :: l2)
  = is_resource_available rid s e (l1 ++ l2).
Proof.
  intros Hrow. unfold is_resource_available.
  rewrite !filter_app. cbn [filter].
  assert (Hc : confirmed_for rid row = false).
  { unfold confirmed_for. apply andb_false_iff.
    destruct Hrow as [H | H]; [right; now apply String.eqb_neq
                              | left; now apply Z.eqb_neq]. }
  now rewrite Hc.
Qed.

Lemma blocked_wider (rid : Z) (s e s' e' : date) (requests : list Request) :
  le s s' = true -> le e' e = true ->
  blocked rid s' e' requests -> blocked rid s e requests.
Proof.
  intros Hs He (row & Hin & Hid & Hst & es & ee & Hps & Hpe & Hle & Hge).
  exists row. repeat split; try assumption. exists es, ee.
  repeat split; try assumption.
  - eapply le_trans; eassumption.
  - rewrite ge_le in *. eapply le_trans; eassumption.
Qed.

(** X5.  Availability is inherited by sub-ranges: when [[s,e]] is free for
    a resource, every range inside it is free, and when a range is refused
    every range around it is refused. *)
Theorem availability_of_subranges
  (rid : Z) (s e s' e' : date) (requests : list Request) :
  ledger_ok requests ->
  le s s' = true -> le e' e = true ->
  (is_resource_available rid s e requests = Some true ->
   is_resource_available rid s' e' requests = Some true) /\
  (is_resource_available rid s' e' requests = Some false ->
   is_resource_available rid s e requests = Some false).
Proof.
  intros Hok Hs He. split.
  - rewrite !(is_resource_available_true rid) by exact Hok.
    intros Hfree Hb. apply Hfree. exact (blocked_wider rid s e s' e' _ Hs He Hb).
  - rewrite !(is_resource_available_false rid) by exact Hok.
    exact (blocked_wider rid s e s' e' _ Hs He).
Qed.

End RangeFacts.

(** ** Further properties: what the ledger of a run of the forms looks like *)

Module HistoryFacts.

Import PyDate Booking History.
Import PyDateFacts AvailabilityFacts BookingFacts LedgerInvariants RangeFacts.
Open Scope string_scope.
Open Scope list_scope.

(** The outcomes of a submit of the request form, with what led to each. *)
Lemma request_form_submit_inv (today : date) (name : string) (rid : Z)
  (s e : date) (st st' : State) (fb : Feedback) :
  request_form_submit today name rid s e st = Some (fb, st') ->
  (exists msg, fb = st_error msg /\ st' = st) \/
  (passes_validation today name s e /\
   exists b t,
     is_resource_available rid s e (requests_df st) = Some b /\
     t = get_title
           (squeeze (filter (fun r => (id r =? rid)%Z) (resources_df st))) /\
     fb = (if (b : bool) then st_success t else st_warning) /\
     st' = deactivate
             (add_request name rid t s e
                (if b then "Confirmed" else "Waitlist") st)).
Proof.
  unfold request_form_submit, passes_validation.
  destruct (validate_dates today s e) as [[|] msg]; cbn [negb fst].
  - destruct (PyStr.strip name =? "") eqn:Hn.
    + intros H. injection H as <- <-. left. eauto.
    + apply String.eqb_neq in Hn.
      destruct (is_resource_available rid s e (requests_df st)) as [b|];
        cbn [bind]; [|discriminate].
      intros H. right. split; [auto|]. exists b. eexists.
      split; [reflexivity|]. split; [reflexivity|].
      destruct b; injection H as <- <-; auto.
  - intros H. injection H as <- <-. left. eauto.
Qed.

Lemma passes_validation_order (today : date) (name : string) (s e : date) :
  passes_validation today name s e -> le today s = true /\ le s e = true.
Proof.
  intros [Hv _]. rewrite validate_dates_cases in Hv.
  rewrite gt_not_le, !lt_not_ge, !ge_le in Hv.
  destruct (le s e); cbn in Hv; [|discriminate].
  destruct (le today s); cbn in Hv; [auto | discriminate].
Qed.

Lemma snoc_split {A : Type} (l l1 l2 : list A) (x y : A) :
  l ++ [x] = l1 ++ y :: l2 ->
  (l2 = [] /\ l = l1 /\ x = y) \/
  (exists l2', l2 = l2' ++ [x] /\ l = l1 ++ y :: l2').
Proof.
  destruct l2 as [|z l2 _] using rev_ind; intros H.
  - apply app_inj_tail in H. left. intuition.
  - change (l1 ++ y :: l2 ++ [z]) with (l1 ++ (y :: l2) ++ [z]) in H.
    rewrite app_assoc in H. apply app_inj_tail in H. destruct H as [-> ->].
    right. now exists l2.
Qed.

Lemma decided_snoc (l : list Request) (row : Request) (s e : date) :
  decided_by_earlier l ->
  written row s e -> le s e = true ->
  (status row = "Confirmed" /\ ~ blocked (resource_id row) s e l) \/
  (status row = "Waitlist" /\ blocked (resource_id row) s e l) ->
  decided_by_earlier (l ++ [row]).
Proof.
  intros Hl Hw Hle Hrow l1 row' l2 Heq.
  apply snoc_split in Heq.
  destruct Heq as [(-> & -> & ->) | (l2' & -> & ->)].
  - now exists s, e.
  - exact (Hl l1 row' l2' eq_refl).
Qed.

Lemma requests_df_offer (today : date) (t c d l : string) (s e : date)
  (cond : string) (r : Z) (st : State) :
  requests_df (snd (offer_form_submit today t c d l s e cond r st))
  = requests_df st.
Proof.
  now destruct (offer_form_submit_cases today t c d l s e cond r st)
    as [-> | ->].
Qed.

Lemma reachable_decided (st : State) :
  reachable st -> decided_by_earlier (requests_df st).
Proof.
  induction 1 as [ | today t c d l s e cond r st _ IH Hs He
                   | st _ IH
                   | today name rid s e st fb st' Hst IH _ Hs He Hsub ].
  - intros [|x l1] row l2 Heq; discriminate Heq.
  - now rewrite requests_df_offer.
  - exact IH.
  - apply request_form_submit_inv in Hsub.
    destruct Hsub as [(msg & _ & ->) | (Hv & b & t & Hb & _ & _ & ->)];
      [exact IH|].
    destruct (reachable_invariant st Hst) as (_ & Hok).
    destruct (passes_validation_order _ _ _ _ Hv) as [_ Hle].
    rewrite requests_df_add_request.
    apply (decided_snoc _ _ s e IH); [now repeat split | exact Hle |].
    cbn [status resource_id]. destruct b.
    + left. split; [reflexivity|].
      now apply (is_resource_available_true rid s e _ Hok).
    + right. split; [reflexivity|].
      now apply (is_resource_available_false rid s e _ Hok).
Qed.

Lemma written_parse (row : Request) (s e : date) :
  written row s e ->
  strptime (start_date row) = Some s /\ strptime (end_date row) = Some e.
Proof.
  intros (Hs & He & -> & ->). split; now apply strptime_strftime.
Qed.

(** The later of two Confirmed rows of one resource was checked against
    the earlier one. *)
Lemma decided_later_row (l : list Request) (i j : nat) (r1 r2 : Request)
  (s1 e1 s2 e2 : date) :
  decided_by_earlier l -> (i < j)%nat ->
  nth_error l i = Some r1 -> nth_error l j = Some r2 ->
  status r1 = "Confirmed" -> status r2 = "Confirmed" ->
  resource_id r1 = resource_id r2 ->
  strptime (start_date r1) = Some s1 -> strptime (end_date r1) = Some e1 ->
  strptime (start_date r2) = Some s2 -> strptime (end_date r2) = Some e2 ->
  ~ ranges_overlap s2 e2 s1 e1.
Proof.
  intros Hl Hij H1 H2 Hc1 Hc2 Hid Hs1 He1 Hs2 He2 Hov.
  destruct (nth_error_split l j H2) as (l1 & l2 & -> & Hlen).
  rewrite nth_error_app1 in H1 by lia. apply nth_error_In in H1.
  destruct (Hl l1 r2 l2 eq_refl) as (s & e & Hw & _ & Hrule).
  destruct (written_parse r2 s e Hw) as [Hs He].
  rewrite Hs2 in Hs. rewrite He2 in He.
  injection Hs as <-. injection He as <-.
  destruct Hrule as [[_ Hfree] | [Hst _]]; [|congruence].
  apply Hfree. exists r1. repeat split; auto. now exists s1, e1.
Qed.

Lemma decided_no_double_booking (l : list Request) :
  decided_by_earlier l -> no_double_booking l.
Proof.
  intros Hl i j r1 r2 s1 e1 s2 e2 Hij H1 H2 Hc1 Hc2 Hid Hs1 He1 Hs2 He2.
  destruct (Nat.lt_total i j) as [Hlt | [Heq | Hgt]]; [| contradiction |].
  - rewrite ranges_overlap_sym.
    exact (decided_later_row l i j r1 r2 s1 e1 s2 e2 Hl Hlt H1 H2
             Hc1 Hc2 Hid Hs1 He1 Hs2 He2).
  - exact (decided_later_row l j i r2 r1 s2 e2 s1 e1 Hl Hgt H2 H1
             Hc2 Hc1 (eq_sym Hid) Hs2 He2 Hs1 He1).
Qed.

(** X6.  No double booking: in every state built by the forms, two
    Confirmed requests of the same resource never have overlapping
    ranges. *)
Theorem confirmed_bookings_never_overlap (st : State) :
  reachable st -> no_double_booking (requests_df st).
Proof.
  intros Hst. apply decided_no_double_booking. now apply reachable_decided.
Qed.

(** X7.  In every state built by the forms each request has the status the
    earlier rows dictate: a Confirmed request overlaps no earlier Confirmed
    request of its resource, and a Waitlist request overlaps one. *)
Theorem statuses_follow_earlier_rows (st : State) (l1 l2 : list Request)
  (row : Request) :
  reachable st ->
  requests_df st = l1 ++ row :: l2 ->
  exists s e,
    strptime (start_date row) = Some s /\ strptime (end_date row) = Some e /\
    (status row = "Confirmed" -> ~ blocked (resource_id row) s e l1) /\
    (status row = "Waitlist" -> blocked (resource_id row) s e l1).
Proof.
  intros Hst Heq.
  destruct (reachable_decided st Hst l1 row l2 Heq)
    as (s & e & Hw & _ & Hrule).
  destruct (written_parse row s e Hw) as [Hs He].
  exists s, e. repeat split; try assumption.
  - intros Hc. destruct Hrule as [[_ H] | [H _]]; [exact H | congruence].
  - intros Hc. destruct Hrule as [[H _] | [_ H]]; [congruence | exact H].
Qed.

(** X8.  In every state built by the forms each ledger row holds two valid
    dates in canonical text, the start not after the end. *)
Theorem ledger_rows_are_ordered_ranges (st : State) (row : Request) :
  reachable st -> In row (requests_df st) ->
  exists s e,
    date_ok s = true /\ date_ok e = true /\
    start_date row = strftime s /\ end_date row = strftime e /\
    strptime (start_date row) = Some s /\ strptime (end_date row) = Some e /\
    le s e = true.
Proof.
  intros Hst Hin. apply in_split in Hin. destruct Hin as (l1 & l2 & Heq).
  destruct (reachable_decided st Hst l1 row l2 Heq)
    as (s & e & Hw & Hle & _).
  destruct (written_parse row s e Hw) as [Hs He].
  destruct Hw as (H1 & H2 & H3 & H4). exists s, e. auto 10.
Qed.

End HistoryFacts.

(** ** Further properties: identifiers, the resource frame, the forms *)

Module StoreFacts.

Import PyDate Booking History.
Import PyDateFacts AvailabilityFacts BookingFacts LedgerInvariants RangeFacts
  HistoryFacts.
Open Scope string_scope.
Open Scope list_scope.

(** X9.  In every state built from the empty frames by the forms, a frame
    of fewer than [2^63 - 1] rows, the reach of 64-bit identifiers, has its
    resource ids 1, 2, ..., n in row order and its request ids
    1, 2, ..., m in row order, so the next identifier is the number of rows
    plus one. *)
Theorem identifiers_are_consecutive (st : State) :
  reachable st ->
  fits_int64 (resources_df st) -> fits_int64 (requests_df st) ->
  map id (resources_df st) = zrange 1 (List.length (resources_df st)) /\
  map request_id (requests_df st) = zrange 1 (List.length (requests_df st)) /\
  next_id (map id (resources_df st))
  = (1 + Z.of_nat (List.length (resources_df st)))%Z /\
  next_id (map request_id (requests_df st))
  = (1 + Z.of_nat (List.length (requests_df st)))%Z.
Proof.
  unfold fits_int64. intros Hst Hr Hq.
  destruct (reachable_numbered st Hst) as [H1 H2].
  specialize (H1 ltac:(lia)). specialize (H2 ltac:(lia)).
  unfold numbered in H1, H2. rewrite length_map in H1, H2.
  split; [exact H1|]. split; [exact H2|].
  rewrite H1, H2. split; apply next_id_zrange; assumption.
Qed.

(** X10.  One submit of either form, from any frames whose identifiers are
    pairwise different 64-bit integers below [2^63 - 1] (as they may have
    been loaded from the files, with gaps and in any order), leaves the
    identifiers pairwise different.  At [2^63 - 1] the sum wraps: the new
    identifier is [-2^63], and the one after it is [-2^63] again, a
    duplicate. *)
Theorem identifiers_stay_unique :
  (forall today name rid s e st fb st',
     request_form_submit today name rid s e st = Some (fb, st') ->
     Forall in_int64 (map request_id (requests_df st)) ->
     Forall (fun y => (y < INT64_MAX)%Z) (map request_id (requests_df st)) ->
     NoDup (map request_id (requests_df st)) ->
     NoDup (map request_id (requests_df st'))) /\
  (forall today t c d l s e cond r st,
     Forall in_int64 (map id (resources_df st)) ->
     Forall (fun y => (y < INT64_MAX)%Z) (map id (resources_df st)) ->
     NoDup (map id (resources_df st)) ->
     NoDup (map id (resources_df
                      (snd (offer_form_submit today t c d l s e cond r st))))) /\
  (forall x xs,
     Forall in_int64 (x :: xs) -> In INT64_MAX (x :: xs) ->
     next_id (x :: xs) = INT64_MIN /\
     next_id ((x :: xs) ++ [next_id (x :: xs)]) = INT64_MIN).
Proof.
  split; [|split].
  - intros today name rid s e st fb st' Hsub Hrange Hbelow Hnd.
    destruct (request_form_submit_cases _ _ _ _ _ _ _ _ Hsub)
      as [-> | (t & status0 & _ & ->)]; [exact Hnd|].
    rewrite requests_df_add_request, map_app. cbn [map request_id].
    now apply NoDup_snoc_next_id.
  - intros today t c d l s e cond r st Hrange Hbelow Hnd.
    destruct (offer_form_submit_cases today t c d l s e cond r st)
      as [-> | ->]; [exact Hnd|].
    cbn [resources_df]. rewrite map_app. cbn [map id].
    now apply NoDup_snoc_next_id.
  - intros x xs Hrange Hin.
    rewrite (next_id_wraps x xs Hrange Hin). split; [reflexivity|].
    change ((x :: xs) ++ [INT64_MIN]) with (x :: (xs ++ [INT64_MIN])).
    apply next_id_wraps.
    + change (x :: xs ++ [INT64_MIN]) with ((x :: xs) ++ [INT64_MIN]).
      apply Forall_app. split; [exact Hrange|].
      repeat constructor; discriminate.
    + change (x :: xs ++ [INT64_MIN]) with ((x :: xs) ++ [INT64_MIN]).
      apply in_or_app. now left.
Qed.

Lemma filter_unique_id (df : list Resource) (r : Resource) :
  NoDup (map id df) -> In r df ->
  filter (fun x => (id x =? id r)%Z) df = [r].
Proof.
  induction df as [|x df IH]; intros Hnd Hin; [destruct Hin|].
  cbn [map] in Hnd. apply NoDup_cons_iff in Hnd. destruct Hnd as [Hx Hnd].
  cbn [filter]. destruct Hin as [-> | Hin].
  - rewrite Z.eqb_refl. f_equal. apply filter_absent.
    intros r' Hr' Heq. apply Hx. rewrite <- Heq. now apply in_map.
  - destruct (id x =? id r)%Z eqn:Hid; [|now apply IH].
    apply Z.eqb_eq in Hid. elim Hx. rewrite Hid. now apply in_map.
Qed.

(** X11.  When the resource ids are pairwise different and the requested
    resource is in the frame, the request records the title of that
    resource as it is at that moment, and a confirmation message names
    it. *)
Theorem request_records_the_title
  (today : date) (name : string) (s e : date) (st : State) (r : Resource) :
  NoDup (map id (resources_df st)) -> In r (resources_df st) ->
  ledger_ok (requests_df st) ->
  passes_validation today name s e ->
  exists fb st' row,
    request_form_submit today name (id r) s e st = Some (fb, st') /\
    requests_df st' = requests_df st ++ [row] /\
    resource_title row = scalar (title r) /\
    (fb = st_success (scalar (title r)) \/ fb = st_warning).
Proof.
  intros Hnd Hin Hok Hv.
  destruct (is_resource_available_total (id r) s e _ Hok) as [b Hb].
  rewrite (request_form_submit_valid today name (id r) s e st Hv), Hb.
  cbn [bind]. rewrite (filter_unique_id _ r Hnd Hin). cbn [squeeze get_title].
  do 3 eexists. split; [reflexivity|]. rewrite requests_df_add_request.
  split; [reflexivity|]. split; [reflexivity|]. destruct b; auto.
Qed.

Lemma store_evolves_refl (df : list Resource) : store_evolves df df.
Proof.
  split; [lia|]. intros i r Hi. exists r. split; [exact Hi | now left].
Qed.

Lemma store_evolves_cleared (rid : Z) (old new : list Resource) :
  cleared rid old new -> store_evolves old new.
Proof.
  intros [Hlen H]. split; [lia|]. intros i r Hi.
  destruct (H i r Hi) as (r' & Hi' & Hr). exists r'. split; [exact Hi'|].
  destruct (id r =? rid)%Z; [right; tauto | left; exact Hr].
Qed.

(** X12.  One submit of either form deletes, moves and edits nothing that
    was there: the request form leaves the ledger as it was or adds one row
    at its end, and a resource row either stays as it is or has both
    availability fields emptied with every other field kept; the offer form
    leaves the ledger as it was and the resource frame as it was or with
    one row added at its end. *)
Theorem frames_only_grow :
  (forall today name rid s e st fb st',
     request_form_submit today name rid s e st = Some (fb, st') ->
     (requests_df st' = requests_df st \/
      exists row, requests_df st' = requests_df st ++ [row]) /\
     List.length (resources_df st') = List.length (resources_df st) /\
     store_evolves (resources_df st) (resources_df st')) /\
  (forall today t c d l s e cond r st,
     let st' := snd (offer_form_submit today t c d l s e cond r st) in
     requests_df st' = requests_df st /\
     (resources_df st' = resources_df st \/
      exists row, resources_df st' = resources_df st ++ [row])).
Proof.
  split.
  - intros today name rid s e st fb st' Hsub.
    destruct (request_form_submit_cases _ _ _ _ _ _ _ _ Hsub)
      as [-> | (t & status0 & Hst & ->)].
    + split; [now left|]. split; [reflexivity | apply store_evolves_refl].
    + rewrite requests_df_add_request. split; [right; now eexists|].
      destruct Hst as [-> | ->].
      * rewrite resources_df_add_request_confirmed.
        pose proof (loc_set_cleared rid (resources_df st)) as Hc.
        split; [exact (proj1 Hc) | now apply (store_evolves_cleared rid)].
      * rewrite resources_df_add_request_waitlist.
        split; [reflexivity | apply store_evolves_refl].
  - intros today t c d l s e cond r st st'. subst st'.
    destruct (offer_form_submit_cases today t c d l s e cond r st)
      as [-> | ->].
    + split; [reflexivity | now left].
    + cbn [requests_df resources_df]. split; [reflexivity|].
      right. now eexists.
Qed.

End StoreFacts.

(** ** Further properties: the two forms *)

Module FormFacts.

Import PyDate Booking History.
Import PyDateFacts AvailabilityFacts BookingFacts LedgerInvariants RangeFacts
  HistoryFacts.
Open Scope string_scope.
Open Scope list_scope.

Lemma validate_dates_by_order (today s e : date) :
  (lt e s = true -> validate_dates today s e = (false, MSG_RANGE)) /\
  (le s e = true -> lt s today = true ->
   validate_dates today s e = (false, MSG_PAST)) /\
  (le today s = true -> le s e = true ->
   validate_dates today s e = (true, "")).
Proof.
  rewrite validate_dates_cases, gt_lt, !lt_not_le. split; [|split].
  - intros ->. reflexivity.
  - intros -> ->. reflexivity.
  - intros Hts Hse. rewrite Hse, Hts, (le_trans today s e Hts Hse).
    reflexivity.
Qed.

(** X13.  The offer form checks in order and stops at the first failure: a
    start after the end gives the range message; otherwise a start before
    today gives the past-date message; otherwise a title or a location that
    is empty after stripping gives the required-fields message.  In each
    case nothing is added to the resource frame and the state is the one
    before the submit. *)
Theorem offer_form_rejections
  (today : date) (t c d l : string) (s e : date) (cond : string) (r : Z)
  (st : State) :
  (lt e s = true ->
   offer_form_submit today t c d l s e cond r st = (st_error MSG_RANGE, st)) /\
  (le s e = true -> lt s today = true ->
   offer_form_submit today t c d l s e cond r st = (st_error MSG_PAST, st)) /\
  (le today s = true -> le s e = true ->
   PyStr.strip t = "" \/ PyStr.strip l = "" ->
   offer_form_submit today t c d l s e cond r st
   = (st_error MSG_REQUIRED, st)).
Proof.
  destruct (validate_dates_by_order today s e) as (H1 & H2 & H3).
  unfold offer_form_submit. split; [|split].
  - intros H. now rewrite (H1 H).
  - intros Ha Hb. now rewrite (H2 Ha Hb).
  - intros Ha Hb Hblank. rewrite (H3 Ha Hb). cbn [negb].
    assert (Hor : (PyStr.strip t =? "") || (PyStr.strip l =? "") = true).
    { apply orb_true_iff. destruct Hblank as [-> | ->]; auto. }
    now rewrite Hor.
Qed.


(** X15.  On a ledger with ISO dates a submit of the request form always
    returns, and the message agrees with what was recorded: an error
    message leaves the state as it was; a confirmation comes with exactly
    one new Confirmed row and a waitlist warning with exactly one new
    Waitlist row, the row carrying the name, the resource id and the range
    of the form; after either the form is closed. *)
Theorem feedback_matches_record
  (today : date) (name : string) (rid : Z) (s e : date) (st : State) :
  ledger_ok (requests_df st) ->
  exists fb st',
    request_form_submit today name rid s e st = Some (fb, st') /\
    match fb with
    | st_error _ => st' = st
    | st_success t =>
        exists row,
          requests_df st' = requests_df st ++ [row] /\
          status row = "Confirmed" /\ resource_title row = t /\
          user_name row = name /\ resource_id row = rid /\
          start_date row = strftime s /\ end_date row = strftime e /\
          request_active st' = false
    | st_warning =>
        exists row,
          requests_df st' = requests_df st ++ [row] /\
          status row = "Waitlist" /\
          user_name row = name /\ resource_id row = rid /\
          start_date row = strftime s /\ end_date row = strftime e /\
          request_active st' = false
    end.
Proof.
  intros Hok. unfold request_form_submit.
  destruct (validate_dates today s e) as [[|] msg]; cbn [negb];
    [|now do 2 eexists].
  destruct (PyStr.strip name =? ""); [now do 2 eexists|].
  destruct (is_resource_available_total rid s e _ Hok) as [b ->].
  cbn [bind]. destruct b; do 2 eexists; (split; [reflexivity|]);
    eexists; rewrite requests_df_add_request;
    (split; [reflexivity|]); cbn; auto 10.
Qed.

End FormFacts.

(** ** Further properties: the search loop and the page around it *)

Module SearchLoopFacts.

Import Booking Search SearchFacts.
Open Scope string_scope.
Open Scope list_scope.

Lemma iloc_range (df : list Resource) (idx : Z) :
  is_some (iloc df idx) = true <->
  (- Z.of_nat (List.length df) <= idx < Z.of_nat (List.length df))%Z.
Proof.
  unfold iloc. set (n := Z.of_nat (List.length df)).
  destruct ((0 <=? idx)%Z && (idx <? n)%Z) eqn:H1.
  - assert (Hi : (Z.to_nat idx < List.length df)%nat) by lia.
    apply nth_error_Some in Hi.
    destruct (nth_error df (Z.to_nat idx)); [|congruence]. cbn. split; lia.
  - destruct ((- n <=? idx)%Z && (idx <? 0)%Z) eqn:H2.
    + assert (Hi : (Z.to_nat (n + idx) < List.length df)%nat) by lia.
      apply nth_error_Some in Hi.
      destruct (nth_error df (Z.to_nat (n + idx))); [|congruence].
      cbn. split; lia.
    + cbn. split; [discriminate | lia].
Qed.

Lemma iloc_mod (df : list Resource) (idx : Z) :
  (- Z.of_nat (List.length df) <= idx < Z.of_nat (List.length df))%Z ->
  iloc df idx = nth_error df (Z.to_nat (idx mod Z.of_nat (List.length df))).
Proof.
  intros Hr. unfold iloc. set (n := Z.of_nat (List.length df)) in *.
  destruct ((0 <=? idx)%Z && (idx <? n)%Z) eqn:H1.
  - now rewrite Z.mod_small by lia.
  - destruct ((- n <=? idx)%Z && (idx <? 0)%Z) eqn:H2; [|lia].
    f_equal. f_equal.
    rewrite <- (Z.mod_add idx 1 n) by lia. rewrite Z.mod_small; lia.
Qed.

Lemma iloc_In (df : list Resource) (idx : Z) (row : Resource) :
  iloc df idx = Some row -> In row df.
Proof.
  unfold iloc.
  destruct ((0 <=? idx)%Z && (idx <? _)%Z); [apply nth_error_In|].
  destruct ((- _ <=? idx)%Z && (idx <? 0)%Z); [apply nth_error_In|].
  discriminate.
Qed.

Lemma iloc_minus_one (df : list Resource) (r0 : Resource) :
  df <> [] -> iloc df (-1) = Some (last df r0).
Proof.
  intros Hne. destruct (exists_last Hne) as (front & x & ->).
  rewrite last_last. unfold iloc. rewrite length_app. cbn [List.length].
  change ((0 <=? -1)%Z) with false. cbn [andb].
  change ((-1 <? 0)%Z) with true. rewrite andb_true_r.
  destruct (- _ <=? -1)%Z eqn:H2; [|apply Z.leb_gt in H2; lia].
  replace (Z.to_nat (Z.of_nat (List.length front + 1) + -1))
    with (List.length front) by lia.
  now rewrite nth_error_app2, Nat.sub_diag by lia.
Qed.

(** The first kept entry heads the result; the rest of the result is the
    result for the remaining entries with one row less to find. *)
Lemma search_loop_head (df : list Resource) (k : nat) (d : Q) (idx : Z)
  (rest : list hit) (row : Resource) :
  (0 <= d)%Q -> iloc df idx = Some row -> (1 <= k)%nat ->
  search_loop df k ((d, idx) :: rest) []
  = (ys <- spec_search df (k - 1) rest ;; Some ((row, score d) :: ys)).
Proof.
  intros Hd Hrow Hk. rewrite search_loop_acc by (cbn; lia).
  cbn [List.length filter]. rewrite Nat.sub_0_r. unfold nonneg at 1.
  cbn [fst]. apply Qle_bool_iff in Hd. rewrite Hd.
  destruct k as [|k]; [lia|]. cbn [firstn mapM]. unfold attach at 1.
  cbn [fst snd]. rewrite Hrow. cbn [bind]. unfold spec_search.
  replace (S k - 1)%nat with k by lia.
  now destruct (mapM (attach df) (firstn k (filter nonneg rest))).
Qed.

Lemma mapM_some {A B : Type} (f : A -> option B) (l : list A) (r : list B) :
  mapM f l = Some r -> Forall (fun x => is_some (f x) = true) l.
Proof.
  revert r. induction l as [|x xs IH]; intros r; cbn [mapM]; [constructor|].
  destruct (f x) as [y|] eqn:Hx; cbn [bind]; [|discriminate].
  destruct (mapM f xs) as [ys|]; cbn [bind]; [|discriminate].
  intros _. constructor; [now rewrite Hx | now apply (IH ys)].
Qed.

(** X16.  When [search] returns, the number of result rows is the smaller
    of [k] and the number of retrieved entries with a non-negative
    distance. *)
Theorem search_result_count
  (retrieve : string -> nat -> list hit) (df : list Resource)
  (query : string) (k : nat) (res : list scored) :
  List.length (retrieve query (k * 2)%nat) = (k * 2)%nat ->
  search retrieve df query k = Some res ->
  List.length res
  = Nat.min k (List.length (filter nonneg (retrieve query (k * 2)%nat))).
Proof.
  intros Hlen. unfold search. rewrite (search_loop_first_k df k _ Hlen).
  unfold spec_search. intros Hres.
  now rewrite (mapM_length _ _ _ Hres), length_firstn.
Qed.

(** X17.  A result row is always a row of the resource frame.  Positions
    count from the end when negative ([idx mod n] inside [-n <= idx < n]);
    the loop tests the distance only, so a retrieved entry with position
    [-1] and a non-negative distance contributes the last row of the
    frame. *)
Theorem result_rows_come_from_the_frame
  (df : list Resource) (k : nat) (hits : list hit) :
  (forall res, search_loop df k hits [] = Some res ->
     Forall (fun r => In (fst r) df) res) /\
  (forall idx,
     (- Z.of_nat (List.length df) <= idx < Z.of_nat (List.length df))%Z ->
     iloc df idx = nth_error df (Z.to_nat (idx mod Z.of_nat (List.length df)))) /\
  (forall d r0, df <> [] -> (0 <= d)%Q -> (1 <= k)%nat ->
     search_loop df k ((d, (-1)%Z) :: hits) []
     = (ys <- spec_search df (k - 1) hits ;;
        Some ((last df r0, score d) :: ys))).
Proof.
  split; [|split].
  - intros res. apply search_loop_from_hit; [|constructor].
    apply Forall_forall. intros h _ row _ Hrow. cbn [fst].
    now apply (iloc_In df (snd h)).
  - apply iloc_mod.
  - intros d r0 Hne Hd Hk.
    apply search_loop_head; [exact Hd | now apply iloc_minus_one | exact Hk].
Qed.

(** X18.  [search] raises exactly when one of the first [k] retrieved
    entries with a non-negative distance has a position outside
    [-n <= idx < n], [n] the number of rows of the frame; entries with a
    negative distance and entries after the [k]-th kept one are never
    looked up. *)
Theorem search_returns_iff_positions_in_range
  (retrieve : string -> nat -> list hit) (df : list Resource)
  (query : string) (k : nat) :
  List.length (retrieve query (k * 2)%nat) = (k * 2)%nat ->
  ((exists res, search retrieve df query k = Some res) <->
   Forall (fun h =>
             (- Z.of_nat (List.length df) <= snd h
              < Z.of_nat (List.length df))%Z)
     (firstn k (filter nonneg (retrieve query (k * 2)%nat)))).
Proof.
  intros Hlen. unfold search. rewrite (search_loop_first_k df k _ Hlen).
  unfold spec_search. split.
  - intros [res Hres]. apply mapM_some in Hres.
    eapply Forall_impl; [|exact Hres]. cbn beta. intros h Hh.
    apply iloc_range. unfold attach in Hh.
    now destruct (iloc df (snd h)).
  - intros Hall. apply mapM_total.
    eapply Forall_impl; [|exact Hall]. cbn beta. intros h Hh.
    apply iloc_range in Hh. unfold attach.
    now destruct (iloc df (snd h)).
Qed.

(** X19.  The score is [1 - d/2] for distances up to 2 and 0 from 2 on,
    hence at most 1 for a non-negative distance and 0 exactly from distance
    2 on; a kept entry at distance 2 or more is not dropped, it heads the
    result with score 0. *)
Theorem score_by_cases (d : Q) :
  (d <= 2 -> score d == 1 - d / 2)%Q /\
  (2 <= d -> score d == 0)%Q /\
  (0 <= d -> score d <= 1)%Q /\
  (score d == 0 <-> 2 <= d)%Q /\
  (forall df k idx rest row,
     (2 <= d)%Q -> iloc df idx = Some row -> (1 <= k)%nat ->
     exists z, (z == 0)%Q /\
       search_loop df k ((d, idx) :: rest) []
       = (ys <- spec_search df (k - 1) rest ;; Some ((row, z) :: ys))).
Proof.
  assert (Hc : (d <= 2 -> score d == 1 - d / 2)%Q /\
               (2 <= d -> score d == 0)%Q).
  { unfold score.
    destruct (py_max_cases (1 - d / 2) 0) as [[H ->] | [H ->]];
      rewrite ?half in *; split; intros; lra. }
  destruct Hc as [H1 H2]. split; [exact H1|]. split; [exact H2|].
  split; [|split].
  - intros Hd. destruct (Qlt_le_dec 2 d) as [Hgt | Hle].
    + rewrite H2 by lra. lra.
    + rewrite H1 by exact Hle. rewrite half. lra.
  - split; [|exact H2]. intros Hz. destruct (Qlt_le_dec d 2) as [Hlt | Hge];
      [|exact Hge].
    rewrite H1 in Hz by lra. rewrite half in Hz. lra.
  - intros df k idx rest row Hd Hrow Hk. exists (score d).
    split; [now apply H2|]. apply search_loop_head; [lra | exact Hrow | exact Hk].
Qed.






End SearchLoopFacts.

(** ** Further properties: the grouped overview and the prediction chart *)

Module DashboardFacts.

Import Booking Dashboard LedgerInvariants.
Open Scope string_scope.
Open Scope list_scope.

Lemma insert_sorted_perm (k : string) (keys : list string) :
  Permutation (insert_sorted k keys) (k :: keys).
Proof.
  induction keys as [|x xs IH]; cbn [insert_sorted]; [reflexivity|].
  destruct (String.leb k x); [reflexivity|].
  rewrite IH. apply perm_swap.
Qed.

Lemma sort_keys_perm (keys : list string) : Permutation (sort_keys keys) keys.
Proof.
  induction keys as [|x xs IH]; cbn; [reflexivity|].
  rewrite insert_sorted_perm. now constructor.
Qed.

Lemma leb_false_flip (a b : string) :
  String.leb a b = false -> String.leb b a = true.
Proof.
  unfold String.leb. rewrite (String.compare_antisym b a).
  now destruct (String.compare a b).
Qed.

Lemma insert_sorted_sorted (k : string) (keys : list string) :
  Sorted (fun a b => String.leb a b = true) keys ->
  Sorted (fun a b => String.leb a b = true) (insert_sorted k keys).
Proof.
  induction 1 as [|x xs Hs IH Hhd]; cbn [insert_sorted].
  - repeat constructor.
  - destruct (String.leb k x) eqn:Hk.
    + constructor; [now constructor | now constructor].
    + constructor; [exact IH|].
      destruct xs as [|y ys]; cbn [insert_sorted].
      * constructor. now apply leb_false_flip.
      * destruct (String.leb k y); constructor.
        -- now apply leb_false_flip.
        -- now inversion Hhd.
Qed.

Lemma sort_keys_sorted (keys : list string) :
  Sorted (fun a b => String.leb a b = true) (sort_keys keys).
Proof.
  induction keys as [|x xs IH]; cbn; [constructor|].
  now apply insert_sorted_sorted.
Qed.

Lemma grouped_overview_counts (requests : list Request) :
  grouped_overview requests
  = map (fun k => (k, count_status k requests))
      (sort_keys
         (nodup string_dec
            (filter (fun k => negb (is_na k)) (map status requests)))).
Proof. unfold grouped_overview, groupby_status. now rewrite map_map. Qed.

Lemma keys_NoDup (requests : list Request) :
  NoDup (sort_keys
           (nodup string_dec
              (filter (fun k => negb (is_na k)) (map status requests)))).
Proof.
  eapply Permutation_NoDup; [symmetry; apply sort_keys_perm|].
  apply NoDup_nodup.
Qed.

Lemma keys_In (requests : list Request) (k : string) :
  In k (sort_keys
          (nodup string_dec
             (filter (fun k => negb (is_na k)) (map status requests)))) <->
  In k (map status requests) /\ is_na k = false.
Proof.
  rewrite <- negb_true_iff, <- (filter_In (fun k => negb (is_na k))).
  split; intros H.
  - apply (nodup_In string_dec).
    eapply Permutation_in; [apply sort_keys_perm | exact H].
  - eapply Permutation_in; [symmetry; apply sort_keys_perm|].
    now apply nodup_In.
Qed.

Lemma booking_status_not_na (k : string) :
  k = "Confirmed" \/ k = "Waitlist" -> is_na k = false.
Proof. intros [-> | ->]; reflexivity. Qed.

Lemma count_status_pos (k : string) (requests : list Request) :
  (0 < count_status k requests)%nat <-> In k (map status requests).
Proof.
  unfold count_status. induction requests as [|r rs IH]; cbn [filter map In].
  - cbn. split; [lia | tauto].
  - destruct (status r =? k) eqn:Hk.
    + apply String.eqb_eq in Hk. cbn. split; [auto | lia].
    + apply String.eqb_neq in Hk. rewrite IH. tauto.
Qed.

Lemma length_filter_orb {A : Type} (p q : A -> bool) (l : list A) :
  (forall x, In x l -> p x = true -> q x = false) ->
  List.length (filter (fun x => p x || q x) l)
  = (List.length (filter p l) + List.length (filter q l))%nat.
Proof.
  induction l as [|x xs IH]; intros Hd; [reflexivity|]. cbn [filter].
  assert (IH' := IH (fun y Hy => Hd y (or_intror Hy))).
  destruct (p x) eqn:Hp; cbn [orb].
  - rewrite (Hd x (or_introl eq_refl) Hp). cbn. now rewrite IH'.
  - destruct (q x); cbn; rewrite IH'; lia.
Qed.

Lemma sum_counts (keys : list string) (requests : list Request) :
  NoDup keys ->
  list_sum (map (fun k => count_status k requests) keys)
  = List.length
      (filter (fun r => existsb (fun k => status r =? k) keys) requests).
Proof.
  induction 1 as [|k ks Hk _ IH]; cbn [map existsb].
  - now rewrite filter_false.
  - change (list_sum (count_status k requests ::
                      map (fun k0 => count_status k0 requests) ks))
      with (count_status k requests
            + list_sum (map (fun k0 => count_status k0 requests) ks))%nat.
    rewrite length_filter_orb, IH; [reflexivity|].
    intros r _ Hr. apply String.eqb_eq in Hr.
    destruct (existsb (fun k0 => status r =? k0) ks) eqn:He; [|reflexivity].
    apply existsb_exists in He. destruct He as (k' & Hin & Heq).
    apply String.eqb_eq in Heq. elim Hk. congruence.
Qed.

(** X21.  On a ledger built by the forms the grouped overview of the
    dashboard has one line per status present, Confirmed before Waitlist
    and no other, without repetition; the number on a line is the number of
    requests with exactly that status, never 0; and the numbers add up to
    Total Requests. *)
Theorem grouped_overview_partitions_ledger (st : State) :
  reachable st ->
  NoDup (map fst (grouped_overview (requests_df st))) /\
  Sorted (fun a b => String.leb a b = true)
    (map fst (grouped_overview (requests_df st))) /\
  (forall k n, In (k, n) (grouped_overview (requests_df st)) <->
     n = count_status k (requests_df st) /\ (0 < n)%nat) /\
  list_sum (map snd (grouped_overview (requests_df st))) = total_requests st /\
  (forall k n, In (k, n) (grouped_overview (requests_df st)) ->
     k = "Confirmed" \/ k = "Waitlist").
Proof.
  intros Hst. destruct (reachable_invariant st Hst) as (Hstat & _).
  rewrite Forall_forall in Hstat.
  assert (Hpresent : forall k, In k (map status (requests_df st)) ->
                       k = "Confirmed" \/ k = "Waitlist").
  { intros k Hk. apply in_map_iff in Hk. destruct Hk as (r & <- & Hr).
    exact (Hstat r Hr). }
  unfold total_requests. set (requests := requests_df st) in *.
  rewrite grouped_overview_counts, !map_map. cbn [fst snd].
  rewrite map_id.
  assert (Hin : forall k n,
            In (k, n)
              (map (fun k0 => (k0, count_status k0 requests))
                 (sort_keys
                    (nodup string_dec
                       (filter (fun k0 => negb (is_na k0))
                          (map status requests)))))
            <-> n = count_status k requests /\ (0 < n)%nat).
  { intros k n. rewrite in_map_iff. split.
    - intros (k' & Heq & Hk). injection Heq as -> <-. split; [reflexivity|].
      apply count_status_pos. now apply keys_In in Hk.
    - intros [-> Hpos]. exists k. split; [reflexivity|].
      apply count_status_pos in Hpos. apply keys_In.
      split; [exact Hpos|]. now apply booking_status_not_na, Hpresent. }
  split; [apply keys_NoDup|]. split; [apply sort_keys_sorted|].
  split; [exact Hin|]. split.
  - rewrite sum_counts by apply keys_NoDup. f_equal.
    apply forallb_filter_id. apply forallb_forall. intros r Hr.
    apply existsb_exists. exists (status r). split; [|apply String.eqb_refl].
    apply keys_In. split; [now apply in_map|].
    apply booking_status_not_na, Hpresent. now apply in_map.
  - intros k n Hkn. apply Hin in Hkn. destruct Hkn as [-> Hpos].
    apply count_status_pos in Hpos. now apply Hpresent.
Qed.

End DashboardFacts.

Module PredictionFacts.

Import Predictions.
Open Scope list_scope.

Lemma list_pair_ind {A : Type} (P : list A -> Prop) :
  P [] -> (forall x, P [x]) ->
  (forall x y l, P l -> P (x :: y :: l)) ->
  forall l, P l.
Proof.
  intros H0 H1 H2 l.
  assert (H : P l /\ forall x, P (x :: l)).
  { induction l as [|y l [IHl IHx]]; [split; auto|].
    split; [apply IHx|]. intros x. now apply H2. }
  exact (proj1 H).
Qed.

Lemma iloc_step2_length {A : Type} (l : list A) :
  List.length (iloc_step2 l) = Nat.div2 (S (List.length l)).
Proof.
  induction l as [| x | x y l IH] using list_pair_ind; try reflexivity.
  cbn [iloc_step2 List.length]. rewrite IH. reflexivity.
Qed.

Lemma iloc_step2_nth {A : Type} (l : list A) (i : nat) :
  nth_error (iloc_step2 l) i = nth_error l (2 * i).
Proof.
  revert i. induction l as [| x | x y l IH] using list_pair_ind; intros i.
  - now destruct i.
  - destruct i as [|i]; [reflexivity|]. cbn.
    replace (i + S (i + 0))%nat with (S (2 * i)) by lia. now destruct i.
  - destruct i as [|i]; [reflexivity|]. cbn [iloc_step2 nth_error].
    rewrite IH. replace (2 * S i)%nat with (S (S (2 * i))) by lia.
    reflexivity.
Qed.

(** X22.  The chart of the predictions page shows every second row of the
    top-ten table: its [i]-th bar is the row of rank [2i + 1] of the sorted
    table for [i < 5], so the rows of even rank are never charted, and it
    has half of [min(n, 10)] bars, rounded up, never more than five. *)
Theorem chart_shows_every_second_of_top_ten {A : Type}
  (sorted_resources : list A) :
  (forall i, nth_error (sampled_top sorted_resources) i
             = if (i <? 5)%nat then nth_error sorted_resources (2 * i)
               else None) /\
  List.length (sampled_top sorted_resources)
  = Nat.div2 (S (Nat.min 10 (List.length sorted_resources))) /\
  (List.length (sampled_top sorted_resources) <= 5)%nat.
Proof.
  unfold sampled_top, top_10.
  assert (Hlen : List.length (iloc_step2 (firstn 10 sorted_resources))
                 = Nat.div2 (S (Nat.min 10 (List.length sorted_resources))))
    by now rewrite iloc_step2_length, length_firstn.
  split; [|split; [exact Hlen|]].
  - intros i. rewrite iloc_step2_nth, nth_error_firstn.
    destruct (i <? 5)%nat eqn:Hi.
    + apply Nat.ltb_lt in Hi.
      assert (H : (2 * i <? 10)%nat = true) by (apply Nat.ltb_lt; lia).
      now rewrite H.
    + apply Nat.ltb_ge in Hi.
      assert (H : (2 * i <? 10)%nat = false) by (apply Nat.ltb_ge; lia).
      now rewrite H.
  - rewrite Hlen.
    assert (Hm : (Nat.min 10 (List.length sorted_resources) <= 10)%nat)
      by apply Nat.le_min_l.
    revert Hm. generalize (Nat.min 10 (List.length sorted_resources)).
    intros m Hm. do 11 (destruct m as [|m]; [cbn; lia|]). lia.
Qed.

End PredictionFacts.

(** ** The further properties at work on the sample data *)

Module MoreScenarios.

Import PyDate Booking Search History Dashboard Predictions Demo Samples.
Import PyDateFacts AvailabilityFacts BookingFacts LedgerInvariants SearchFacts.
Import RangeFacts HistoryFacts StoreFacts FormFacts SearchLoopFacts
  DashboardFacts PredictionFacts.
Open Scope string_scope.
Open Scope list_scope.

Lemma validate_dates_accepts_iff_witness :
  validate_dates today (jun 1) (jun 10) = (true, "").
Proof.
  apply (proj1 (validate_dates_accepts_iff today (jun 1) (jun 10))).
  split; reflexivity.
Defined.

Lemma overlap_is_sharing_a_day_witness :
  ranges_overlap (jun 1) (jun 10) (jun 10) (jun 15) /\
  ~ ranges_overlap (jun 1) (jun 10) (jun 11) (jun 15).
Proof.
  destruct (overlap_is_sharing_a_day (jun 1) (jun 10) (jun 10) (jun 15))
    as (_ & _ & Hday).
  destruct (overlap_is_sharing_a_day (jun 1) (jun 10) (jun 11) (jun 15))
    as (_ & Hdis & _).
  split.
  - apply (Hday eq_refl eq_refl). exists (jun 10). repeat split.
  - apply Hdis. left. reflexivity.
Defined.

Lemma written_dates_read_back_witness :
  exists row,
    requests_df (add_request "Asha" 1 (scalar "Drill") (jun 1) (jun 10)
                   "Confirmed" st0)
    = requests_df st0 ++ [row] /\
    strptime (start_date row) = Some (jun 1) /\
    strptime (end_date row) = Some (jun 10).
Proof.
  exact (proj1 (written_dates_read_back "Asha" 1 (scalar "Drill")
                  (jun 1) (jun 10) "Confirmed" st0 eq_refl eq_refl)).
Defined.

Lemma other_rows_never_block_witness :
  is_resource_available 1 (jun 20) (jun 21) (requests_df st3)
  = is_resource_available 1 (jun 20) (jun 21) (requests_df st2).
Proof.
  rewrite <- (app_nil_r (requests_df st2)).
  apply (other_rows_never_block 1 (jun 20) (jun 21) (requests_df st2) []
           meera).
  left. discriminate.
Defined.

Lemma availability_of_subranges_witness :
  is_resource_available 1 (jun 12) (jun 15) (requests_df st1) = Some true.
Proof.
  apply (proj1 (availability_of_subranges 1 (jun 11) (jun 20)
                  (jun 12) (jun 15) (requests_df st1)
                  ltac:(repeat constructor) eq_refl eq_refl)).
  reflexivity.
Defined.

Lemma confirmed_bookings_never_overlap_witness :
  ~ ranges_overlap (jun 1) (jun 10) (jun 11) (jun 15).
Proof.
  refine (confirmed_bookings_never_overlap st3 Scenarios.demo_reachable
            0%nat 1%nat _ _ (jun 1) (jun 10) (jun 11) (jun 15)
            _ eq_refl eq_refl eq_refl eq_refl eq_refl
            eq_refl eq_refl eq_refl eq_refl).
  discriminate.
Defined.

Lemma statuses_follow_earlier_rows_witness :
  exists s e,
    strptime (start_date meera) = Some s /\
    strptime (end_date meera) = Some e /\
    blocked 1 s e (requests_df st2).
Proof.
  destruct (statuses_follow_earlier_rows st3 (requests_df st2) [] meera
              Scenarios.demo_reachable eq_refl)
    as (s & e & Hs & He & _ & Hw).
  exists s, e. repeat split; try assumption. now apply Hw.
Defined.

Lemma ledger_rows_are_ordered_ranges_witness :
  exists s e,
    date_ok s = true /\ date_ok e = true /\
    start_date meera = strftime s /\ end_date meera = strftime e /\
    strptime (start_date meera) = Some s /\
    strptime (end_date meera) = Some e /\
    le s e = true.
Proof.
  apply (ledger_rows_are_ordered_ranges st3 meera Scenarios.demo_reachable).
  right. right. left. reflexivity.
Defined.

Lemma identifiers_are_consecutive_witness :
  map id (resources_df st3) = [1; 2]%Z /\
  map request_id (requests_df st3) = [1; 2; 3]%Z /\
  next_id (map id (resources_df st3)) = 3%Z /\
  next_id (map request_id (requests_df st3)) = 4%Z.
Proof.
  exact (identifiers_are_consecutive st3 Scenarios.demo_reachable
           eq_refl eq_refl).
Defined.

Lemma identifiers_stay_unique_witness :
  NoDup (map request_id (requests_df loaded_next)) /\
  next_id (map request_id (requests_df brim)) = INT64_MIN.
Proof.
  destruct identifiers_stay_unique as (Hreq & _ & Hwrap).
  split.
  - apply (Hreq today "Ravi" 7%Z (jun 1) (jun 2) loaded
             (st_success (scalar "Saw")) loaded_next eq_refl).
    + repeat constructor; discriminate.
    + repeat constructor.
    + repeat constructor. intros [].
  - apply (Hwrap INT64_MAX []).
    + repeat constructor; discriminate.
    + now left.
Defined.

Lemma request_records_the_title_witness :
  exists fb st' row,
    request_form_submit today "Asha" 1 (jun 1) (jun 10) st0 = Some (fb, st') /\
    requests_df st' = requests_df st0 ++ [row] /\
    resource_title row = scalar "Drill" /\
    (fb = st_success (scalar "Drill") \/ fb = st_warning).
Proof.
  apply (request_records_the_title today "Asha" (jun 1) (jun 10) st0 drill).
  - cbn. repeat (constructor; [cbn; intuition discriminate|]). constructor.
  - left. reflexivity.
  - constructor.
  - apply Scenarios.demo_validation; reflexivity.
Defined.

Lemma frames_only_grow_witness :
  (requests_df st1 = requests_df st0 \/
   exists row, requests_df st1 = requests_df st0 ++ [row]) /\
  List.length (resources_df st1) = List.length (resources_df st0) /\
  store_evolves (resources_df st0) (resources_df st1).
Proof.
  exact (proj1 frames_only_grow today "Asha" 1%Z (jun 1) (jun 10) st0
           (st_success (scalar "Drill")) st1 eq_refl).
Defined.

Lemma offer_form_rejections_witness :
  offer_form_submit today "Drill" "Tools" "" "Pune" (jun 10) (jun 1) "Good" 4
    initial = (st_error MSG_RANGE, initial) /\
  offer_form_submit (jun 5) "Drill" "Tools" "" "Pune" (jun 1) (jun 10) "Good" 4
    initial = (st_error MSG_PAST, initial) /\
  offer_form_submit today "Drill" "Tools" "" "  " (jun 1) (jun 10) "Good" 4
    initial = (st_error MSG_REQUIRED, initial).
Proof.
  split; [|split].
  - apply (proj1 (offer_form_rejections today "Drill" "Tools" "" "Pune"
                    (jun 10) (jun 1) "Good" 4 initial)). reflexivity.
  - apply (proj1 (proj2 (offer_form_rejections (jun 5) "Drill" "Tools" ""
                           "Pune" (jun 1) (jun 10) "Good" 4 initial)));
      reflexivity.
  - apply (proj2 (proj2 (offer_form_rejections today "Drill" "Tools" ""
                           "  " (jun 1) (jun 10) "Good" 4 initial)));
      try reflexivity.
    right. reflexivity.
Defined.


Lemma feedback_matches_record_witness :
  exists fb st',
    request_form_submit today "Meera" 1 (jun 5) (jun 7) st2a = Some (fb, st') /\
    match fb with
    | st_error _ => st' = st2a
    | st_success t =>
        exists row,
          requests_df st' = requests_df st2a ++ [row] /\
          status row = "Confirmed" /\ resource_title row = t /\
          user_name row = "Meera" /\ resource_id row = 1%Z /\
          start_date row = strftime (jun 5) /\
          end_date row = strftime (jun 7) /\
          request_active st' = false
    | st_warning =>
        exists row,
          requests_df st' = requests_df st2a ++ [row] /\
          status row = "Waitlist" /\
          user_name row = "Meera" /\ resource_id row = 1%Z /\
          start_date row = strftime (jun 5) /\
          end_date row = strftime (jun 7) /\
          request_active st' = false
    end.
Proof.
  apply (feedback_matches_record today "Meera" 1 (jun 5) (jun 7) st2a).
  repeat constructor.
Defined.

Lemma search_result_count_witness :
  exists res,
    search ranked shelf "drill" 5 = Some res /\ List.length res = 5%nat.
Proof.
  eexists. split; [reflexivity|].
  exact (search_result_count ranked shelf "drill" 5 _ eq_refl eq_refl).
Defined.

Lemma result_rows_come_from_the_frame_witness :
  (forall res, search_loop shelf 5 (ranked "drill" 10) [] = Some res ->
     Forall (fun r => In (fst r) shelf) res) /\
  iloc shelf (-1) = nth_error shelf 9 /\
  search_loop shelf 1 ((1 # 2, (-1)%Z) :: ranked "drill" 10) []
  = Some [(last shelf Samples.drill, score (1 # 2))].
Proof.
  destruct (result_rows_come_from_the_frame shelf 5 (ranked "drill" 10))
    as (Hrows & Hmod & _).
  destruct (result_rows_come_from_the_frame shelf 1 (ranked "drill" 10))
    as (_ & _ & Hlast).
  split; [exact Hrows|]. split.
  - apply (Hmod (-1)%Z). cbn. lia.
  - rewrite (Hlast (1 # 2) Samples.drill); [reflexivity | discriminate
                                            | discriminate | lia].
Defined.

Lemma search_returns_iff_positions_in_range_witness :
  exists res, search ranked shelf "drill" 5 = Some res.
Proof.
  apply (proj2 (search_returns_iff_positions_in_range ranked shelf "drill" 5
                  eq_refl)).
  cbn. repeat (constructor; [cbn; lia|]). constructor.
Defined.

Lemma score_by_cases_witness :
  (score 3 == 0)%Q /\ (score 1 == 1 # 2)%Q.
Proof.
  split.
  - apply (proj1 (proj2 (score_by_cases 3))). discriminate.
  - rewrite (proj1 (score_by_cases 1)); [reflexivity | discriminate].
Defined.



Lemma grouped_overview_partitions_ledger_witness :
  grouped_overview (requests_df st3) = [("Confirmed", 2%nat); ("Waitlist", 1%nat)] /\
  list_sum (map snd (grouped_overview (requests_df st3))) = total_requests st3 /\
  forall k n, In (k, n) (grouped_overview (requests_df st3)) ->
              k = "Confirmed" \/ k = "Waitlist".
Proof.
  destruct (grouped_overview_partitions_ledger st3 Scenarios.demo_reachable)
    as (_ & _ & _ & Hsum & Hkeys).
  split; [reflexivity|]. split; [exact Hsum | exact Hkeys].
Defined.

End MoreScenarios.
